(** * Pipeline name generator (plugins/krci-devops/scripts/generate-pipeline.py)

    A shallow embedding of the script: Python strings as lists of code
    points, the [re] patterns as a small backtracking matcher, [print] and
    [sys.exit] as a writer monad over the two output streams. *)

From Stdlib Require Import List NArith ZArith Bool String Ascii Lia.
Import ListNotations.
Local Open Scope N_scope.

(** ** Python strings *)

(** A [str] is a sequence of Unicode code points. *)
Definition char := N.
Definition str := list char.

Definition ord (a : ascii) : char := N_of_ascii a.

(** The code points of an ASCII literal of the source. *)
Definition py (s : string) : str := map ord (list_ascii_of_string s).

Definition LF : char := 10.
Definition HYPHEN : char := 45.

Fixpoint str_eqb (a b : str) : bool :=
  match a, b with
  | [], [] => true
  | x :: a', y :: b' => (x =? y) && str_eqb a' b'
  | _, _ => false
  end.

(** [sep.join(parts)] *)
Fixpoint join (sep : str) (parts : list str) : str :=
  match parts with
  | [] => []
  | [p] => p
  | p :: rest => p ++ sep ++ join sep rest
  end.

(** [x in xs] on a list of strings *)
Definition str_in (x : str) (xs : list str) : bool := existsb (str_eqb x) xs.

(** ** The part of [re] the script uses *)

Module Re.

(** One entry of a bracketed character set. *)
Inductive item :=
| Range (lo hi : char)
| Single (c : char).

Inductive regex :=
| Eps
| Bol                         (* ^ *)
| Eol                         (* $ *)
| Lit (c : char)
| Class (items : list item)   (* [...] *)
| Seq (r1 r2 : regex)
| Alt (r1 r2 : regex)         (* r1|r2 *)
| Group (r : regex)           (* (r) *)
| Plus (r : regex).           (* r+ *)

(** A matcher state: the position reached and the text still ahead. *)
Definition state := (nat * str)%type.

Definition in_item (c : char) (it : item) : bool :=
  match it with
  | Range lo hi => (lo <=? c) && (c <=? hi)
  | Single x => c =? x
  end.

Definition in_class (items : list item) (c : char) : bool :=
  existsb (in_item c) items.

(** Repetition, longest first, as the engine backtracks. Every round of a
    body that consumes text shortens what is ahead, so [fuel] is taken
    from its length. *)
Fixpoint iter (body : state -> list state) (fuel : nat) (st : state)
  : list state :=
  match fuel with
  | O => []
  | S n => flat_map (fun st' => iter body n st' ++ [st']) (body st)
  end.

(** All the states a pattern can leave the matcher in, in the order the
    backtracking engine tries them. Without MULTILINE, [^] holds at
    position 0 only and [$] holds at the end of the text and just before a
    newline that ends it. *)
Fixpoint run (r : regex) : state -> list state :=
  match r with
  | Eps => fun st => [st]
  | Bol => fun st => if Nat.eqb (fst st) 0 then [st] else []
  | Eol => fun st =>
      match snd st with
      | [] => [st]
      | [c] => if c =? LF then [st] else []
      | _ => []
      end
  | Lit c => fun st =>
      match snd st with
      | x :: rest => if x =? c then [(S (fst st), rest)] else []
      | [] => []
      end
  | Class items => fun st =>
      match snd st with
      | x :: rest => if in_class items x then [(S (fst st), rest)] else []
      | [] => []
      end
  | Seq r1 r2 => fun st => flat_map (run r2) (run r1 st)
  | Alt r1 r2 => fun st => run r1 st ++ run r2 st
  | Group r' => run r'
  | Plus r' => fun st => iter (run r') (S (List.length (snd st))) st
  end.

(** [re.match(pattern, s)]: a match starting at position 0, abstracted to
    the position where it ends; [None] when there is none. *)
Definition re_match (r : regex) (s : str) : option nat :=
  match run r (0%nat, s) with
  | [] => None
  | st :: _ => Some (fst st)
  end.

(** Truth value of a match object. *)
Definition matched (m : option nat) : bool :=
  match m with Some _ => true | None => false end.

(** Pattern text: consecutive pieces, and a run of literal characters. *)
Fixpoint cat (rs : list regex) : regex :=
  match rs with
  | [] => Eps
  | r :: rs' => Seq r (cat rs')
  end.

Definition text (s : string) : regex := cat (map Lit (py s)).

(** The relational reading of a pattern. *)
Inductive Matches : regex -> state -> state -> Prop :=
| M_Eps st : Matches Eps st st
| M_Bol s : Matches Bol (0%nat, s) (0%nat, s)
| M_Eol_end p : Matches Eol (p, []) (p, [])
| M_Eol_nl p : Matches Eol (p, [LF]) (p, [LF])
| M_Lit c p s : Matches (Lit c) (p, c :: s) (S p, s)
| M_Class items c p s :
    in_class items c = true -> Matches (Class items) (p, c :: s) (S p, s)
| M_Seq r1 r2 st1 st2 st3 :
    Matches r1 st1 st2 -> Matches r2 st2 st3 -> Matches (Seq r1 r2) st1 st3
| M_AltL r1 r2 st st' : Matches r1 st st' -> Matches (Alt r1 r2) st st'
| M_AltR r1 r2 st st' : Matches r2 st st' -> Matches (Alt r1 r2) st st'
| M_Group r st st' : Matches r st st' -> Matches (Group r) st st'
| M_Plus1 r st st' : Matches r st st' -> Matches (Plus r) st st'
| M_PlusS r st st1 st2 :
    Matches r st st1 -> Matches (Plus r) st1 st2 -> Matches (Plus r) st st2.

(** Patterns whose every match consumes text, and patterns that repeat
    only such bodies. *)
Fixpoint consuming (r : regex) : bool :=
  match r with
  | Eps | Bol | Eol => false
  | Lit _ | Class _ => true
  | Seq r1 r2 => consuming r1 || consuming r2
  | Alt r1 r2 => consuming r1 && consuming r2
  | Group r' | Plus r' => consuming r'
  end.

Fixpoint productive (r : regex) : bool :=
  match r with
  | Eps | Bol | Eol | Lit _ | Class _ => true
  | Seq r1 r2 | Alt r1 r2 => productive r1 && productive r2
  | Group r' => productive r'
  | Plus r' => consuming r' && productive r'
  end.

End Re.

Import Re.

(** ** Exceptions, output and exit *)

Inductive exn :=
| KeyError (key : str)
| ValueError
| IndexError.

(** A computation without output: a value, or a raised exception. *)
Inductive result (A : Type) :=
| Ok (a : A)
| Err (e : exn).
Arguments Ok {A} a.
Arguments Err {A} e.

Inductive stream := Stdout | Stderr.

(** One [print] call: the stream and the text, without the newline that
    [print] appends. *)
Definition event := (stream * str)%type.

Inductive outcome (A : Type) :=
| Return (a : A)
| SystemExit (code : Z)
| Raise (e : exn).
Arguments Return {A} a.
Arguments SystemExit {A} code.
Arguments Raise {A} e.

(** What a piece of the script prints, and how it ends. *)
Definition M (A : Type) := (list event * outcome A)%type.

Definition ret {A} (a : A) : M A := ([], Return a).

Definition bind {A B} (m : M A) (k : A -> M B) : M B :=
  match m with
  | (out, Return a) => let (out', r) := k a in (out ++ out', r)
  | (out, SystemExit code) => (out, SystemExit code)
  | (out, Raise e) => (out, Raise e)
  end.

Notation "x <- m ;; k" := (bind m (fun x => k))
  (at level 61, m at next level, right associativity).
Notation "m ;; k" := (bind m (fun _ => k))
  (at level 61, right associativity).

Definition print (file : stream) (line : str) : M unit :=
  ([(file, line)], Return tt).

Definition sys_exit {A} (code : Z) : M A := ([], SystemExit code).

Definition lift {A} (r : result A) : M A :=
  match r with
  | Ok a => ret a
  | Err e => ([], Raise e)
  end.

(** [if cond: body] *)
Definition when (cond : bool) (body : M unit) : M unit :=
  if cond then body else ret tt.

(** [xs[i]] *)
Definition index (xs : list str) (i : nat) : result str :=
  match nth_error xs i with
  | Some x => Ok x
  | None => Err IndexError
  end.

(** The exit status of the process: 0 when [main] returns, the argument of
    [sys.exit], 1 for an uncaught exception. *)
Definition exit_code {A} (o : outcome A) : Z :=
  match o with
  | Return _ => 0%Z
  | SystemExit code => code
  | Raise _ => 1%Z
  end.

Definition lines_of (file : stream) (out : list event) : list str :=
  map snd (filter (fun e => match fst e, file with
                            | Stdout, Stdout | Stderr, Stderr => true
                            | _, _ => false
                            end) out).

(** ** [str.format] with keyword arguments *)

Fixpoint lookup (key : str) (kwargs : list (str * str)) : option str :=
  match kwargs with
  | [] => None
  | (k, v) :: rest => if str_eqb key k then Some v else lookup key rest
  end.

(** One pass over the template; [field] holds the name read so far inside
    braces, newest character first. The templates of the script use plain
    [{name}] fields only: no doubled braces, conversions or format
    specifications. Replaced text is not scanned again. *)
Fixpoint format_from (kwargs : list (str * str)) (field : option str)
    (template : str) : result str :=
  match template with
  | [] =>
      match field with
      | None => Ok []
      | Some _ => Err ValueError
      end
  | c :: rest =>
      match field with
      | None =>
          if c =? ord "{" then format_from kwargs (Some []) rest
          else if c =? ord "}" then Err ValueError
          else match format_from kwargs None rest with
               | Ok s => Ok (c :: s)
               | Err e => Err e
               end
      | Some name =>
          if c =? ord "}" then
            match lookup (rev name) kwargs with
            | None => Err (KeyError (rev name))
            | Some v =>
                match format_from kwargs None rest with
                | Ok s => Ok (v ++ s)
                | Err e => Err e
                end
            end
          else format_from kwargs (Some (c :: name)) rest
      end
  end.

Definition format (template : str) (kwargs : list (str * str)) : result str :=
  format_from kwargs None template.

(** ** The script *)

(** Supported VCS providers *)
Definition SUPPORTED_VCS : list str :=
  [py "github"; py "gitlab"; py "bitbucket"].

(** Pipeline naming patterns *)
Definition BUILD_PATTERN : str :=
  py "{vcs}-{language}-{framework}-app-build-default".
Definition REVIEW_PATTERN : str :=
  py "{vcs}-{language}-{framework}-app-review".

(** [[a-z0-9]] and [[a-z0-9-]] *)
Definition alnum : list item :=
  [Range (ord "a") (ord "z"); Range (ord "0") (ord "9")].
Definition alnum_hyphen : list item :=
  [Range (ord "a") (ord "z"); Range (ord "0") (ord "9"); Single (ord "-")].

(** [^[a-z0-9]+-[a-z0-9]+-[a-z0-9]+-app-build-(default|edp)$] *)
Definition BUILD_REGEX : regex :=
  cat [Bol; Plus (Class alnum); Lit (ord "-"); Plus (Class alnum);
       Lit (ord "-"); Plus (Class alnum); text "-app-build-";
       Group (Alt (text "default") (text "edp")); Eol].

(** [^[a-z0-9]+-[a-z0-9]+-[a-z0-9]+-app-review$] *)
Definition REVIEW_REGEX : regex :=
  cat [Bol; Plus (Class alnum); Lit (ord "-"); Plus (Class alnum);
       Lit (ord "-"); Plus (Class alnum); text "-app-review"; Eol].

(** [^[a-z0-9-]+$] *)
Definition COMPONENT_REGEX : regex :=
  cat [Bol; Plus (Class alnum_hyphen); Eol].

Definition is_empty (s : str) : bool :=
  match s with [] => true | _ => false end.

(** The three diagnostics of the validators, as the f-strings build them. *)
Definition EMPTY_ERROR (component_name : str) : str :=
  py "Error: " ++ component_name ++ py " cannot be empty".

Definition INVALID_ERROR (component_name component : str) : str :=
  py "Error: " ++ component_name
  ++ py " must contain only lowercase letters, "
  ++ py "numbers, and hyphens. Got: " ++ component.

Definition VCS_WARNING (vcs : str) : str :=
  py "Warning: VCS '" ++ vcs
  ++ py "' is not in the list of commonly supported "
  ++ py "providers: " ++ join (py ", ") SUPPORTED_VCS
  ++ py ". Proceeding anyway.".

Definition validate_component (component component_name : str) : M bool :=
  if is_empty component then
    print Stderr (EMPTY_ERROR component_name) ;;
    ret false
  else if negb (matched (re_match COMPONENT_REGEX component)) then
    print Stderr (INVALID_ERROR component_name component) ;;
    ret false
  else ret true.

Definition validate_vcs (vcs : str) : M bool :=
  when (negb (str_in vcs SUPPORTED_VCS))
    (print Stderr (VCS_WARNING vcs)) ;;
  validate_component vcs (py "VCS").

Definition validate_pipeline_name (name : str) : bool * option str :=
  if matched (re_match BUILD_REGEX name) then (true, Some (py "build"))
  else if matched (re_match REVIEW_REGEX name) then (true, Some (py "review"))
  else (false, None).

(** The same classification with the two patterns tried in the other
    order; not part of the script, used to compare with it. *)
Definition validate_pipeline_name_review_first (name : str)
  : bool * option str :=
  if matched (re_match REVIEW_REGEX name) then (true, Some (py "review"))
  else if matched (re_match BUILD_REGEX name) then (true, Some (py "build"))
  else (false, None).

Definition is_ascii (c : char) : bool := c <? 128.

Definition ascii_lower (c : char) : char :=
  if (ord "A" <=? c) && (c <=? ord "Z") then c + 32 else c.

(** [str(x)] inside an f-string, for an [Optional[str]] *)
Definition str_of_optional (x : option str) : str :=
  match x with
  | Some s => s
  | None => py "None"
  end.

(** The module docstring, [__doc__]. *)
Definition doc : str :=
  join [LF]
    [ [];
      py "Pipeline Name Generator for EDP-Tekton";
      [];
      py "This script generates valid pipeline names following KRCI naming conventions.";
      py "It validates inputs and produces both build and review pipeline names.";
      [];
      py "Usage:";
      py "    python generate-pipeline.py <vcs> <language> <framework>";
      py "    python generate-pipeline.py --validate <pipeline-name>";
      [];
      py "Examples:";
      py "    python generate-pipeline.py github java springboot";
      py "    python generate-pipeline.py gitlab python fastapi";
      py "    python generate-pipeline.py --validate github-java-springboot-app-build-default";
      [] ].

Definition USAGE_VALIDATE : str :=
  py "Usage: generate-pipeline.py --validate <pipeline-name>".
Definition USAGE_GENERATE : str :=
  py "Usage: generate-pipeline.py <vcs> <language> <framework>".

Definition CHECK_MARK : char := 10003.   (* U+2713 *)
Definition BALLOT_X : char := 10007.     (* U+2717 *)

Definition ONBOARDING : str :=
  py "  ./charts/pipelines-library/scripts/onboarding-component.sh ".

Section Script.

(** [str.lower] on a string that holds a code point above 127. The Unicode
    case tables belong to the interpreter, not to the script, and the
    mapping is not character by character there (final sigma), so it is a
    parameter on whole strings. *)
Variable unicode_lower : str -> str.

(** [s.lower()] *)
Definition lower (s : str) : str :=
  if forallb is_ascii s then map ascii_lower s else unicode_lower s.

Definition generate_pipeline_names (vcs language framework : str)
  : result (str * str) :=
  match format BUILD_PATTERN
          [(py "vcs", lower vcs); (py "language", lower language);
           (py "framework", lower framework)] with
  | Err e => Err e
  | Ok build_name =>
      match format REVIEW_PATTERN
              [(py "vcs", lower vcs); (py "language", lower language);
               (py "framework", lower framework)] with
      | Err e => Err e
      | Ok review_name => Ok (build_name, review_name)
      end
  end.

Definition main (argv : list str) : M unit :=
  when (Nat.ltb (List.length argv) 2)
    (print Stdout doc ;; sys_exit 1%Z) ;;
  (* Validation mode *)
  arg1 <- lift (index argv 1) ;;
  when (str_eqb arg1 (py "--validate"))
    (when (negb (Nat.eqb (List.length argv) 3))
       (print Stdout USAGE_VALIDATE ;; sys_exit 1%Z) ;;
     pipeline_name <- lift (index argv 2) ;;
     let '(is_valid, pipeline_type) := validate_pipeline_name pipeline_name in
     if is_valid then
       print Stdout
         ([CHECK_MARK] ++ py " Valid " ++ str_of_optional pipeline_type
          ++ py " pipeline name: " ++ pipeline_name) ;;
       sys_exit 0%Z
     else
       print Stderr
         ([BALLOT_X] ++ py " Invalid pipeline name: " ++ pipeline_name) ;;
       print Stderr ([LF] ++ py "Expected formats:") ;;
       print Stderr
         (py "  Build:  <vcs>-<language>-<framework>-app-build-default") ;;
       print Stderr (py "  Review: <vcs>-<language>-<framework>-app-review") ;;
       sys_exit 1%Z) ;;
  (* Generation mode *)
  when (negb (Nat.eqb (List.length argv) 4))
    (print Stdout USAGE_GENERATE ;; sys_exit 1%Z) ;;
  vcs <- lift (index argv 1) ;;
  language <- lift (index argv 2) ;;
  framework <- lift (index argv 3) ;;
  (* Validate inputs *)
  ok_vcs <- validate_vcs vcs ;;
  when (negb ok_vcs) (sys_exit 1%Z) ;;
  ok_language <- validate_component language (py "language") ;;
  when (negb ok_language) (sys_exit 1%Z) ;;
  ok_framework <- validate_component framework (py "framework") ;;
  when (negb ok_framework) (sys_exit 1%Z) ;;
  (* Generate pipeline names *)
  names <- lift (generate_pipeline_names vcs language framework) ;;
  let '(build_name, review_name) := names in
  (* Output results *)
  print Stdout (py "Generated pipeline names:") ;;
  print Stdout (py "  Build:  " ++ build_name) ;;
  print Stdout (py "  Review: " ++ review_name) ;;
  print Stdout [] ;;
  print Stdout (py "Onboarding commands:") ;;
  print Stdout
    (ONBOARDING ++ py "--type build-pipeline -n " ++ build_name
     ++ py " --vcs " ++ vcs) ;;
  print Stdout
    (ONBOARDING ++ py "--type review-pipeline -n " ++ review_name
     ++ py " --vcs " ++ vcs).

End Script.

(** The lines [main] prints on stdout once the three checks have passed. *)
Definition REPORT (vcs build_name review_name : str) : list str :=
  [ py "Generated pipeline names:";
    py "  Build:  " ++ build_name;
    py "  Review: " ++ review_name;
    [];
    py "Onboarding commands:";
    ONBOARDING ++ py "--type build-pipeline -n " ++ build_name
      ++ py " --vcs " ++ vcs;
    ONBOARDING ++ py "--type review-pipeline -n " ++ review_name
      ++ py " --vcs " ++ vcs ].

(** ** The patterns as the specification reads them *)

(** Non-empty text drawn from a character set. *)
Definition drawn (items : list item) (w : str) : bool :=
  negb (is_empty w) && forallb (in_class items) w.

(** One hyphen-free part of a pipeline name, [[a-z0-9]+]. *)
Definition segment (w : str) : bool := drawn alnum w.

(** A component token, [[a-z0-9-]+]. *)
Definition token (w : str) : bool := drawn alnum_hyphen w.

(** The whole of [n] is three segments and the build ending. *)
Definition full_build_name (n : str) : Prop :=
  exists a b c t,
    segment a = true /\ segment b = true /\ segment c = true /\
    (t = py "default" \/ t = py "edp") /\
    n = a ++ py "-" ++ b ++ py "-" ++ c ++ py "-app-build-" ++ t.

(** The whole of [n] is three segments and the review ending. *)
Definition full_review_name (n : str) : Prop :=
  exists a b c,
    segment a = true /\ segment b = true /\ segment c = true /\
    n = a ++ py "-" ++ b ++ py "-" ++ c ++ py "-app-review".

(** What [$] lets follow a match: nothing, or one final newline. *)
Definition end_or_newline (e : str) : Prop := e = [] \/ e = [LF].

(** Number of hyphens of a string. *)
Definition hyphens (s : str) : nat :=
  List.length (filter (N.eqb HYPHEN) s).

(** * Facts about the matcher *)

Module ReFacts.

(** Every state the matcher reaches is one the pattern allows. *)

Lemma run_sound r : forall st st', In st' (run r st) -> Matches r st st'.
Proof.
  induction r; simpl; intros [p s] st' Hin.
  - destruct Hin as [<-|[]]. constructor.
  - simpl in Hin. destruct p; simpl in Hin; [|easy].
    destruct Hin as [<-|[]]. constructor.
  - simpl in Hin. destruct s as [|c [|d s]]; simpl in Hin.
    + destruct Hin as [<-|[]]. constructor.
    + destruct (N.eqb_spec c LF); [|easy]. subst.
      destruct Hin as [<-|[]]. constructor.
    + easy.
  - simpl in Hin. destruct s as [|x s]; [easy|].
    destruct (N.eqb_spec x c); [|easy]. subst.
    destruct Hin as [<-|[]]. constructor.
  - simpl in Hin. destruct s as [|x s]; [easy|].
    destruct (in_class items x) eqn:E; [|easy].
    destruct Hin as [<-|[]]. now constructor.
  - apply in_flat_map in Hin. destruct Hin as [mid [H1 H2]]. eauto using Matches.
  - apply in_app_or in Hin. destruct Hin; eauto using Matches.
  - eauto using Matches.
  - change (In st' (iter (run r) (S (List.length s)) (p, s))) in Hin.
    generalize dependent (S (List.length s)). generalize (p, s). clear p s.
    intros st fuel. revert st. induction fuel as [|n IHn]; simpl; intros st Hin; [easy|].
    apply in_flat_map in Hin. destruct Hin as [mid [Hmid Hin]].
    apply in_app_or in Hin. destruct Hin as [Hin|[<-|[]]].
    + eapply M_PlusS; eauto.
    + apply M_Plus1; auto.
Qed.

(** A match never lengthens the text ahead, and a consuming pattern
    shortens it. *)
Lemma Matches_shrinks r st st' :
  Matches r st st' ->
  (List.length (snd st') <= List.length (snd st))%nat /\
  (consuming r = true -> (List.length (snd st') < List.length (snd st))%nat).
Proof.
  induction 1; simpl in *; try (split; [lia | intros; try discriminate; lia]).
  - destruct IHMatches1, IHMatches2. split; [lia|].
    intros Hc. apply orb_true_iff in Hc. destruct Hc; intuition lia.
  - destruct IHMatches. split; [lia|]. intros Hc. apply andb_true_iff in Hc. intuition.
  - destruct IHMatches. split; [lia|]. intros Hc. apply andb_true_iff in Hc. intuition.
  - intuition.
  - intuition.
  - destruct IHMatches1, IHMatches2. split; [lia|]. intros Hc. intuition lia.
Qed.

(** More fuel loses no state. *)
Lemma iter_mono body : forall n m st st',
  (n <= m)%nat -> In st' (iter body n st) -> In st' (iter body m st).
Proof.
  induction n as [|n IH]; simpl; intros m st st' Hle Hin; [easy|].
  destruct m as [|m]; [lia|]. simpl.
  apply in_flat_map in Hin. destruct Hin as [mid [Hmid Hin]].
  apply in_flat_map. exists mid. split; [auto|].
  apply in_app_or in Hin. apply in_or_app.
  destruct Hin as [Hin|Hin]; [left; apply IH with (m := m) in Hin; auto; lia | now right].
Qed.

(** The fuel taken from the text suffices: the matcher reaches every state
    the pattern allows. *)
Lemma run_complete r st st' :
  Matches r st st' -> productive r = true -> In st' (run r st).
Proof.
  induction 1; simpl; intros Hp; auto.
  - rewrite N.eqb_refl. now left.
  - rewrite H. now left.
  - apply andb_true_iff in Hp. destruct Hp.
    apply in_flat_map. eauto.
  - apply andb_true_iff in Hp. destruct Hp. apply in_or_app. auto.
  - apply andb_true_iff in Hp. destruct Hp. apply in_or_app. auto.
  - apply andb_true_iff in Hp. destruct Hp as [Hc Hp].
    apply in_flat_map. exists st'. split; [auto|]. apply in_or_app. right. now left.
  - pose proof Hp as Hp'. apply andb_true_iff in Hp'. destruct Hp' as [Hc Hp'].
    apply in_flat_map. exists st1. split; [auto|]. apply in_or_app. left.
    specialize (IHMatches2 Hp).
    change (In st2 (iter (run r) (S (List.length (snd st1))) st1)) in IHMatches2.
    apply Matches_shrinks in H. destruct H as [_ Hlt]. specialize (Hlt Hc).
    eapply iter_mono; [|exact IHMatches2]. lia.
Qed.

Lemma matched_iff r s :
  matched (re_match r s) = true <-> exists st', In st' (run r (0%nat, s)).
Proof.
  unfold re_match. destruct (run r (0%nat, s)) as [|st l]; simpl; split.
  - discriminate.
  - intros [st' []].
  - eauto.
  - reflexivity.
Qed.

(** On a productive pattern [re.match] succeeds exactly when the pattern,
    read as a relation, allows a match from position 0. *)
Lemma re_match_iff r s :
  productive r = true ->
  (matched (re_match r s) = true <-> exists st', Matches r (0%nat, s) st').
Proof.
  intros Hp. rewrite matched_iff. split; intros [st' H]; exists st'.
  - now apply run_sound.
  - now apply run_complete.
Qed.

Lemma drawn_cons items c w :
  drawn items (c :: w) = in_class items c && forallb (in_class items) w.
Proof. reflexivity. Qed.

Lemma drawn_inv items w :
  drawn items w = true -> w <> [] /\ forallb (in_class items) w = true.
Proof.
  destruct w; [discriminate|]. unfold drawn. simpl. intros H. split; [discriminate|assumption].
Qed.

Lemma Matches_plus_class_inv items st st' :
  Matches (Plus (Class items)) st st' ->
  exists w, drawn items w = true /\ snd st = w ++ snd st'.
Proof.
  intros H. remember (Plus (Class items)) as r eqn:Er.
  induction H; try discriminate; injection Er as ->.
  - inversion H; subst. exists [c]. rewrite drawn_cons. simpl.
    split; [now rewrite andb_true_r | reflexivity].
  - destruct (IHMatches2 eq_refl) as [w [Hw Hs]].
    apply drawn_inv in Hw. destruct Hw as [_ Hw].
    inversion H; subst. simpl in *. exists (c :: w). rewrite drawn_cons. subst.
    split; [now apply andb_true_iff | reflexivity].
Qed.

Lemma Matches_plus_class_intro items w :
  drawn items w = true ->
  forall p s, exists q, Matches (Plus (Class items)) (p, w ++ s) (q, s).
Proof.
  induction w as [|c w IH]; [discriminate|].
  rewrite drawn_cons. intros H p s. apply andb_true_iff in H. destruct H as [Hc Hw].
  destruct w as [|d w].
  - exists (S p). apply M_Plus1. now constructor.
  - destruct (IH Hw (S p) s) as [q Hq].
    exists q. eapply M_PlusS; [|exact Hq]. simpl. now constructor.
Qed.

Lemma Matches_lits_inv w : forall st st',
  Matches (cat (map Lit w)) st st' -> snd st = w ++ snd st'.
Proof.
  induction w as [|c w IH]; simpl; intros st st' H.
  - now inversion H.
  - inversion H as [| | | | | |r1 r2 s1 s2 s3 H1 H2| | | | |]; subst.
    inversion H1; subst. simpl. f_equal. now apply IH in H2.
Qed.

Lemma Matches_lits_intro w : forall p s,
  exists q, Matches (cat (map Lit w)) (p, w ++ s) (q, s).
Proof.
  induction w as [|c w IH]; simpl; intros p s.
  - exists p. constructor.
  - destruct (IH (S p) s) as [q Hq]. exists q.
    eapply M_Seq; [constructor | exact Hq].
Qed.

Lemma Matches_text_inv t st st' :
  Matches (text t) st st' -> snd st = py t ++ snd st'.
Proof. apply Matches_lits_inv. Qed.

Lemma Matches_text_intro t p s :
  exists q, Matches (text t) (p, py t ++ s) (q, s).
Proof. apply Matches_lits_intro. Qed.

Lemma Matches_Eol_inv st st' :
  Matches Eol st st' -> snd st' = snd st /\ end_or_newline (snd st).
Proof. unfold end_or_newline. inversion 1; subst; simpl; auto. Qed.

Lemma Matches_Eol_intro p e :
  end_or_newline e -> Matches Eol (p, e) (p, e).
Proof. intros [->| ->]; constructor. Qed.

End ReFacts.
Import ReFacts.

(** * The three patterns of the script *)

Ltac inv_matches :=
  repeat match goal with
  | H : Matches (Seq _ _) _ _ |- _ => inversion H; subst; clear H
  | H : Matches Eps _ _ |- _ => inversion H; subst; clear H
  | H : Matches Bol _ _ |- _ => inversion H; subst; clear H
  | H : Matches (Lit _) _ _ |- _ => inversion H; subst; clear H
  | H : Matches (Group _) _ _ |- _ => inversion H; subst; clear H
  | H : Matches (Alt _ _) _ _ |- _ => inversion H; subst; clear H
  | H : Matches (Plus (Class _)) _ _ |- _ =>
      apply Matches_plus_class_inv in H; destruct H as [? [? ?]]
  | H : Matches (text _) _ _ |- _ => apply Matches_text_inv in H
  | H : Matches Eol _ _ |- _ => apply Matches_Eol_inv in H; destruct H as [? ?]
  end.

Ltac str_norm := repeat (progress (rewrite <- ?app_assoc; simpl)).

Ltac chase_text :=
  simpl in *; subst;
  repeat match goal with H : snd _ = _ |- _ => rewrite H; clear H end;
  str_norm; reflexivity.

(** [BUILD_REGEX] accepts a full build name, followed by nothing or by one
    newline, and nothing else. *)
Lemma BUILD_REGEX_sound s :
  matched (re_match BUILD_REGEX s) = true ->
  exists n e, full_build_name n /\ end_or_newline e /\ s = n ++ e.
Proof.
  intros H. apply re_match_iff in H; [|reflexivity]. destruct H as [st' H].
  unfold BUILD_REGEX in H. cbn [cat] in H. inv_matches.
  all: match goal with
       | Ha : drawn alnum ?a = true, Hb : drawn alnum ?b = true,
         Hc : drawn alnum ?c = true, Ht : _ = py ?t ++ snd ?st |- _ =>
           match goal with Ha' : snd (0%nat, _) = a ++ _,
                           Hc' : _ = c ++ snd _ |- _ =>
             exists (a ++ py "-" ++ b ++ py "-" ++ c ++ py "-app-build-" ++ py t),
               (snd st);
             split; [exists a, b, c, (py t); unfold segment; auto 6|]
           end
       end.
  all: split; [assumption|chase_text].
Qed.

Lemma BUILD_REGEX_complete n e :
  full_build_name n -> end_or_newline e ->
  matched (re_match BUILD_REGEX (n ++ e)) = true.
Proof.
  intros (a & b & c & t & Ha & Hb & Hc & Ht & ->) He.
  apply re_match_iff; [reflexivity|].
  unfold BUILD_REGEX. cbn [cat]. str_norm.
  destruct (Matches_plus_class_intro _ _ Ha 0%nat
              (45 :: b ++ 45 :: c ++ py "-app-build-" ++ t ++ e)) as [q1 H1].
  destruct (Matches_plus_class_intro _ _ Hb (S q1)
              (45 :: c ++ py "-app-build-" ++ t ++ e)) as [q2 H2].
  destruct (Matches_plus_class_intro _ _ Hc (S q2)
              (py "-app-build-" ++ t ++ e)) as [q3 H3].
  destruct (Matches_text_intro "-app-build-" q3 (t ++ e)) as [q4 H4].
  assert (exists q5, Matches (Group (Alt (text "default") (text "edp")))
                       (q4, t ++ e) (q5, e)) as [q5 H5].
  { destruct Ht as [-> | ->].
    - destruct (Matches_text_intro "default" q4 e) as [q5 H5].
      exists q5. apply M_Group, M_AltL, H5.
    - destruct (Matches_text_intro "edp" q4 e) as [q5 H5].
      exists q5. apply M_Group, M_AltR, H5. }
  exists (q5, e).
  eapply M_Seq; [apply M_Bol|].
  eapply M_Seq; [exact H1|]. eapply M_Seq; [apply M_Lit|].
  eapply M_Seq; [exact H2|]. eapply M_Seq; [apply M_Lit|].
  eapply M_Seq; [exact H3|]. eapply M_Seq; [exact H4|].
  eapply M_Seq; [exact H5|].
  eapply M_Seq; [apply Matches_Eol_intro, He | apply M_Eps].
Qed.

(** [REVIEW_REGEX] accepts a full review name, followed by nothing or by
    one newline, and nothing else. *)
Lemma REVIEW_REGEX_sound s :
  matched (re_match REVIEW_REGEX s) = true ->
  exists n e, full_review_name n /\ end_or_newline e /\ s = n ++ e.
Proof.
  intros H. apply re_match_iff in H; [|reflexivity]. destruct H as [st' H].
  unfold REVIEW_REGEX in H. cbn [cat] in H. inv_matches.
  match goal with
  | Ha : drawn alnum ?a = true, Hb : drawn alnum ?b = true,
    Hc : drawn alnum ?c = true, Ht : _ = py _ ++ snd ?st |- _ =>
      match goal with Ha' : snd (0%nat, _) = a ++ _,
                      Hc' : _ = c ++ snd _ |- _ =>
        exists (a ++ py "-" ++ b ++ py "-" ++ c ++ py "-app-review"), (snd st);
        split; [exists a, b, c; unfold segment; auto|]
      end
  end.
  split; [assumption|chase_text].
Qed.

Lemma REVIEW_REGEX_complete n e :
  full_review_name n -> end_or_newline e ->
  matched (re_match REVIEW_REGEX (n ++ e)) = true.
Proof.
  intros (a & b & c & Ha & Hb & Hc & ->) He.
  apply re_match_iff; [reflexivity|].
  unfold REVIEW_REGEX. cbn [cat]. str_norm.
  destruct (Matches_plus_class_intro _ _ Ha 0%nat
              (45 :: b ++ 45 :: c ++ py "-app-review" ++ e)) as [q1 H1].
  destruct (Matches_plus_class_intro _ _ Hb (S q1)
              (45 :: c ++ py "-app-review" ++ e)) as [q2 H2].
  destruct (Matches_plus_class_intro _ _ Hc (S q2)
              (py "-app-review" ++ e)) as [q3 H3].
  destruct (Matches_text_intro "-app-review" q3 e) as [q4 H4].
  exists (q4, e).
  eapply M_Seq; [apply M_Bol|].
  eapply M_Seq; [exact H1|]. eapply M_Seq; [apply M_Lit|].
  eapply M_Seq; [exact H2|]. eapply M_Seq; [apply M_Lit|].
  eapply M_Seq; [exact H3|]. eapply M_Seq; [exact H4|].
  eapply M_Seq; [apply Matches_Eol_intro, He | apply M_Eps].
Qed.

(** [^[a-z0-9-]+$] accepts a token, followed by nothing or by one newline,
    and nothing else. *)
Lemma COMPONENT_REGEX_sound s :
  matched (re_match COMPONENT_REGEX s) = true ->
  exists w e, token w = true /\ end_or_newline e /\ s = w ++ e.
Proof.
  intros H. apply re_match_iff in H; [|reflexivity]. destruct H as [st' H].
  unfold COMPONENT_REGEX in H. cbn [cat] in H. inv_matches.
  match goal with
  | Ha : drawn alnum_hyphen ?a = true, Ha' : _ = ?a ++ snd ?st |- _ =>
      exists a, (snd st)
  end.
  split; [assumption|]. split; [assumption|chase_text].
Qed.

Lemma COMPONENT_REGEX_complete w e :
  token w = true -> end_or_newline e ->
  matched (re_match COMPONENT_REGEX (w ++ e)) = true.
Proof.
  intros Hw He. apply re_match_iff; [reflexivity|].
  unfold COMPONENT_REGEX. cbn [cat].
  destruct (Matches_plus_class_intro _ _ Hw 0%nat e) as [q1 H1].
  exists (q1, e).
  eapply M_Seq; [apply M_Bol|]. eapply M_Seq; [exact H1|].
  eapply M_Seq; [apply Matches_Eol_intro, He | apply M_Eps].
Qed.

(** ** Hyphens and last characters *)

Lemma hyphens_app a b : hyphens (a ++ b) = (hyphens a + hyphens b)%nat.
Proof. unfold hyphens. now rewrite filter_app, length_app. Qed.

Lemma hyphens_segment w : segment w = true -> hyphens w = 0%nat.
Proof.
  intros H. apply drawn_inv in H. destruct H as [_ H].
  unfold hyphens. induction w as [|c w IH]; [reflexivity|].
  simpl in H. apply andb_true_iff in H. destruct H as [Hc Hw].
  cbn [filter]. destruct (N.eqb_spec HYPHEN c) as [<-|_].
  - vm_compute in Hc. discriminate.
  - now apply IH.
Qed.

Lemma hyphens_end e : end_or_newline e -> hyphens e = 0%nat.
Proof. intros [->| ->]; reflexivity. Qed.

Lemma hyphens_pos s : In HYPHEN s -> (0 < hyphens s)%nat.
Proof.
  unfold hyphens. induction s as [|c s IH]; [easy|].
  cbn [filter In]. intros [<-|H]; [rewrite N.eqb_refl; simpl; lia|].
  destruct (HYPHEN =? c); simpl; auto with arith.
Qed.

Lemma hyphens_full_build n : full_build_name n -> hyphens n = 5%nat.
Proof.
  intros (a & b & c & t & Ha & Hb & Hc & Ht & ->).
  rewrite !hyphens_app.
  rewrite (hyphens_segment a), (hyphens_segment b), (hyphens_segment c)
    by assumption.
  destruct Ht as [-> | ->]; reflexivity.
Qed.

Lemma hyphens_full_review n : full_review_name n -> hyphens n = 4%nat.
Proof.
  intros (a & b & c & Ha & Hb & Hc & ->).
  rewrite !hyphens_app.
  rewrite (hyphens_segment a), (hyphens_segment b), (hyphens_segment c)
    by assumption. reflexivity.
Qed.

Lemma hyphens_BUILD_REGEX s :
  matched (re_match BUILD_REGEX s) = true -> hyphens s = 5%nat.
Proof.
  intros H. apply BUILD_REGEX_sound in H. destruct H as (n & e & Hn & He & ->).
  now rewrite hyphens_app, (hyphens_full_build n), (hyphens_end e).
Qed.

Lemma hyphens_REVIEW_REGEX s :
  matched (re_match REVIEW_REGEX s) = true -> hyphens s = 4%nat.
Proof.
  intros H. apply REVIEW_REGEX_sound in H. destruct H as (n & e & Hn & He & ->).
  now rewrite hyphens_app, (hyphens_full_review n), (hyphens_end e).
Qed.

Lemma last_app_nonempty (a b : str) d : b <> [] -> last (a ++ b) d = last b d.
Proof.
  intros Hb. induction a as [|x a IH]; [reflexivity|].
  change ((x :: a) ++ b) with (x :: (a ++ b)).
  destruct (a ++ b) eqn:E.
  - apply app_eq_nil in E. tauto.
  - exact IH.
Qed.

Lemma last_full_build n :
  full_build_name n -> last n 0 = ord "t" \/ last n 0 = ord "p".
Proof.
  intros (a & b & c & t & _ & _ & _ & Ht & ->).
  rewrite !app_assoc.
  destruct Ht as [-> | ->]; rewrite last_app_nonempty by discriminate; auto.
Qed.

Lemma last_full_review n : full_review_name n -> last n 0 = ord "w".
Proof.
  intros (a & b & c & _ & _ & _ & ->).
  rewrite !app_assoc. now rewrite last_app_nonempty by discriminate.
Qed.

Lemma last_BUILD_REGEX s :
  matched (re_match BUILD_REGEX s) = true ->
  last s 0 = ord "t" \/ last s 0 = ord "p" \/ last s 0 = LF.
Proof.
  intros H. apply BUILD_REGEX_sound in H. destruct H as (n & e & Hn & He & ->).
  destruct He as [-> | ->].
  - rewrite app_nil_r. apply last_full_build in Hn. tauto.
  - rewrite last_last. auto.
Qed.

(** No string matches both patterns. *)
Lemma BUILD_REVIEW_disjoint s :
  matched (re_match BUILD_REGEX s) = true ->
  matched (re_match REVIEW_REGEX s) = true -> False.
Proof.
  intros Hb Hr. apply hyphens_BUILD_REGEX in Hb. apply hyphens_REVIEW_REGEX in Hr.
  congruence.
Qed.

(** * The validators *)

Lemma str_eqb_eq a : forall b, str_eqb a b = true <-> a = b.
Proof.
  induction a as [|x a IH]; intros [|y b]; simpl; split; try easy.
  - intros H. apply andb_true_iff in H. destruct H as [Hx Hab].
    apply N.eqb_eq in Hx. apply IH in Hab. congruence.
  - intros H. injection H as -> ->. rewrite N.eqb_refl. now apply IH.
Qed.

Lemma str_in_iff x xs : str_in x xs = true <-> In x xs.
Proof.
  unfold str_in. rewrite existsb_exists. split.
  - intros [y [Hin Heq]]. apply str_eqb_eq in Heq. now subst.
  - intros Hin. exists x. split; [assumption | now apply str_eqb_eq].
Qed.

(** What [validate_component] returns and prints, by cases on its two
    tests. It never exits and never raises. *)
Lemma validate_component_eq component component_name :
  validate_component component component_name =
    if is_empty component then
      ([(Stderr, EMPTY_ERROR component_name)], Return false)
    else if matched (re_match COMPONENT_REGEX component) then
      ([], Return true)
    else ([(Stderr, INVALID_ERROR component_name component)], Return false).
Proof.
  unfold validate_component.
  destruct (is_empty component); [reflexivity|].
  destruct (matched (re_match COMPONENT_REGEX component)); reflexivity.
Qed.

Lemma token_not_empty w : token w = true -> is_empty w = false.
Proof. now destruct w. Qed.

(** [validate_component] returns true exactly on a token followed by
    nothing or by one newline. *)
Lemma validate_component_true_iff component component_name :
  snd (validate_component component component_name) = Return true <->
  exists w e, token w = true /\ end_or_newline e /\ component = w ++ e.
Proof.
  rewrite validate_component_eq. split.
  - destruct (is_empty component); [discriminate|].
    destruct (matched (re_match COMPONENT_REGEX component)) eqn:E; [|discriminate].
    intros _. now apply COMPONENT_REGEX_sound.
  - intros (w & e & Hw & He & ->).
    rewrite (COMPONENT_REGEX_complete w e Hw He).
    destruct w; [discriminate|]. reflexivity.
Qed.

Lemma validate_component_token w component_name :
  token w = true -> validate_component w component_name = ([], Return true).
Proof.
  intros Hw. rewrite validate_component_eq, (token_not_empty w Hw).
  rewrite <- (app_nil_r w) at 1.
  now rewrite (COMPONENT_REGEX_complete w [] Hw (or_introl eq_refl)).
Qed.

(** A string that does not end in a newline passes exactly when it is a
    token. *)
Lemma validate_component_no_newline component component_name :
  last component 0 <> LF ->
  (snd (validate_component component component_name) = Return true <->
   token component = true).
Proof.
  intros Hl. split.
  - intros H. apply validate_component_true_iff in H.
    destruct H as (w & e & Hw & [-> | ->] & ->).
    + now rewrite app_nil_r.
    + now rewrite last_last in Hl.
  - intros H. now rewrite validate_component_token.
Qed.

Lemma validate_vcs_eq vcs :
  validate_vcs vcs =
    ((if str_in vcs SUPPORTED_VCS then [] else [(Stderr, VCS_WARNING vcs)])
       ++ fst (validate_component vcs (py "VCS")),
     snd (validate_component vcs (py "VCS"))).
Proof.
  unfold validate_vcs. rewrite validate_component_eq.
  destruct (str_in vcs SUPPORTED_VCS); simpl;
    destruct (is_empty vcs); simpl; try reflexivity;
    destruct (matched (re_match COMPONENT_REGEX vcs)); reflexivity.
Qed.

(** * Classification of pipeline names *)

Lemma validate_pipeline_name_eq name :
  validate_pipeline_name name =
    if matched (re_match BUILD_REGEX name) then (true, Some (py "build"))
    else if matched (re_match REVIEW_REGEX name)
         then (true, Some (py "review"))
         else (false, None).
Proof. reflexivity. Qed.

Lemma validate_pipeline_name_build name :
  validate_pipeline_name name = (true, Some (py "build")) <->
  exists n e, full_build_name n /\ end_or_newline e /\ name = n ++ e.
Proof.
  rewrite validate_pipeline_name_eq. split.
  - destruct (matched (re_match BUILD_REGEX name)) eqn:E.
    + intros _. now apply BUILD_REGEX_sound.
    + destruct (matched (re_match REVIEW_REGEX name)); discriminate.
  - intros (n & e & Hn & He & ->). now rewrite BUILD_REGEX_complete.
Qed.

Lemma validate_pipeline_name_review name :
  validate_pipeline_name name = (true, Some (py "review")) <->
  exists n e, full_review_name n /\ end_or_newline e /\ name = n ++ e.
Proof.
  rewrite validate_pipeline_name_eq. split.
  - destruct (matched (re_match BUILD_REGEX name)) eqn:E; [discriminate|].
    destruct (matched (re_match REVIEW_REGEX name)) eqn:E'; [|discriminate].
    intros _. now apply REVIEW_REGEX_sound.
  - intros (n & e & Hn & He & ->).
    pose proof (REVIEW_REGEX_complete n e Hn He) as Hr.
    destruct (matched (re_match BUILD_REGEX (n ++ e))) eqn:E.
    + destruct (BUILD_REVIEW_disjoint _ E Hr).
    + now rewrite Hr.
Qed.

(** On a name that does not end in a newline the classification is the
    full-string one. *)
Lemma validate_pipeline_name_no_newline name :
  last name 0 <> LF ->
  (validate_pipeline_name name = (true, Some (py "build")) <->
   full_build_name name) /\
  (validate_pipeline_name name = (true, Some (py "review")) <->
   full_review_name name).
Proof.
  intros Hl. rewrite validate_pipeline_name_build, validate_pipeline_name_review.
  split; split.
  - intros (n & e & Hn & [-> | ->] & ->).
    + now rewrite app_nil_r.
    + now rewrite last_last in Hl.
  - intros Hn. exists name, []. rewrite app_nil_r. repeat split; auto. now left.
  - intros (n & e & Hn & [-> | ->] & ->).
    + now rewrite app_nil_r.
    + now rewrite last_last in Hl.
  - intros Hn. exists name, []. rewrite app_nil_r. repeat split; auto. now left.
Qed.

(** * Properties of the validators *)

(** C1. [validate_pipeline_name] on a full review name followed by one
    newline: the script answers (true, "review"), and likewise
    (true, "build") for a build name followed by a newline, although
    neither string is, as a whole, of the review or of the build form.
    The [$] of the two patterns also holds just before a final newline, so
    the match is not anchored to the end of the string. *)
Theorem validate_pipeline_name_final_newline :
  let review := py "github-java-springboot-app-review" ++ [LF] in
  let build := py "github-java-springboot-app-build-default" ++ [LF] in
  validate_pipeline_name review = (true, Some (py "review")) /\
  validate_pipeline_name build = (true, Some (py "build")) /\
  ~ full_review_name review /\ ~ full_build_name review /\
  ~ full_review_name build /\ ~ full_build_name build.
Proof.
  cbv zeta. split; [vm_compute; reflexivity|]. split; [vm_compute; reflexivity|].
  repeat split; intros H.
  - apply last_full_review in H. rewrite last_last in H. discriminate.
  - apply last_full_build in H. rewrite last_last in H.
    destruct H; discriminate.
  - apply last_full_review in H. rewrite last_last in H. discriminate.
  - apply last_full_build in H. rewrite last_last in H.
    destruct H; discriminate.
Qed.

(** C2. [validate_component] on "java" followed by one newline: it
    returns true and prints nothing, although the newline is outside
    [[a-z0-9-]] and the string is not a token. *)
Theorem validate_component_final_newline :
  let value := py "java" ++ [LF] in
  validate_component value (py "language") = ([], Return true) /\
  In LF value /\ in_class alnum_hyphen LF = false /\ token value = false.
Proof.
  cbv zeta. split; [vm_compute; reflexivity|].
  split; [simpl; tauto|]. split; reflexivity.
Qed.

(** C5. The four boundary names: build-default and build-edp are build
    names, the review name is a review name, build-custom is invalid. *)
Theorem validate_pipeline_name_boundary :
  validate_pipeline_name (py "github-java-springboot-app-build-default")
    = (true, Some (py "build")) /\
  validate_pipeline_name (py "github-java-springboot-app-build-edp")
    = (true, Some (py "build")) /\
  validate_pipeline_name (py "github-java-springboot-app-review")
    = (true, Some (py "review")) /\
  validate_pipeline_name (py "github-java-springboot-app-build-custom")
    = (false, None).
Proof. repeat split; vm_compute; reflexivity. Qed.

(** C6. [validate_vcs] returns what [validate_component] returns on the
    same string. Membership in the supported list is exact equality with
    one of the three names; outside the list the only difference is one
    warning on stderr ahead of what the structural check prints, and a
    token outside the list is accepted. "gitea" gives true and the
    warning. *)
Theorem validate_vcs_spec vcs :
  snd (validate_vcs vcs) = snd (validate_component vcs (py "VCS")) /\
  (str_in vcs SUPPORTED_VCS = true <->
   vcs = py "github" \/ vcs = py "gitlab" \/ vcs = py "bitbucket") /\
  fst (validate_vcs vcs) =
    (if str_in vcs SUPPORTED_VCS then [] else [(Stderr, VCS_WARNING vcs)])
      ++ fst (validate_component vcs (py "VCS")) /\
  (token vcs = true -> snd (validate_vcs vcs) = Return true) /\
  validate_vcs (py "gitea")
    = ([(Stderr, VCS_WARNING (py "gitea"))], Return true).
Proof.
  rewrite validate_vcs_eq. cbn [fst snd].
  split; [reflexivity|]. split.
  { rewrite str_in_iff. unfold SUPPORTED_VCS. simpl. intuition congruence. }
  split; [reflexivity|]. split.
  - intros Ht. now rewrite validate_component_token.
  - vm_compute. reflexivity.
Qed.

(** C9. No string matches both patterns, so trying the review pattern
    first gives the same answer as the script's order. *)
Theorem validate_pipeline_name_order name :
  ~ (matched (re_match BUILD_REGEX name) = true /\
     matched (re_match REVIEW_REGEX name) = true) /\
  validate_pipeline_name_review_first name = validate_pipeline_name name.
Proof.
  split.
  - intros [Hb Hr]. exact (BUILD_REVIEW_disjoint name Hb Hr).
  - unfold validate_pipeline_name_review_first, validate_pipeline_name.
    destruct (matched (re_match BUILD_REGEX name)) eqn:Eb;
      destruct (matched (re_match REVIEW_REGEX name)) eqn:Er; try reflexivity.
    destruct (BUILD_REVIEW_disjoint name Eb Er).
Qed.

(** Whenever the structural check rejects a string outside the supported
    list, [validate_vcs] prints the warning first and the error of the
    structural check second, both on stderr, and returns false. *)
Lemma validate_vcs_warning_then_error vcs :
  str_in vcs SUPPORTED_VCS = false ->
  snd (validate_component vcs (py "VCS")) = Return false ->
  validate_vcs vcs =
    ([(Stderr, VCS_WARNING vcs);
      (Stderr, if is_empty vcs then EMPTY_ERROR (py "VCS")
               else INVALID_ERROR (py "VCS") vcs)],
     Return false).
Proof.
  intros Hin Hv. rewrite validate_vcs_eq, Hin.
  rewrite validate_component_eq in *.
  destruct (is_empty vcs); [reflexivity|].
  destruct (matched (re_match COMPONENT_REGEX vcs)); [discriminate|reflexivity].
Qed.

Lemma validate_vcs_warning_then_error_witness :
  str_in (py "GitHub") SUPPORTED_VCS = false /\
  snd (validate_component (py "GitHub") (py "VCS")) = Return false /\
  validate_vcs (py "GitHub") =
    ([(Stderr, VCS_WARNING (py "GitHub"));
      (Stderr, INVALID_ERROR (py "VCS") (py "GitHub"))],
     Return false).
Proof.
  split; [reflexivity|]. split; [vm_compute; reflexivity|].
  apply (validate_vcs_warning_then_error (py "GitHub")).
  - reflexivity.
  - vm_compute. reflexivity.
Defined.

(** The empty string takes the same path: warning, then the error for an
    empty component. *)
Example validate_vcs_empty :
  validate_vcs [] =
    ([(Stderr, VCS_WARNING []); (Stderr, EMPTY_ERROR (py "VCS"))],
     Return false).
Proof. vm_compute. reflexivity. Qed.

(** Outside the supported list, a string that is not a token and does not
    end in a newline gets the warning and then the structural error, and
    false. *)
Lemma validate_vcs_rejects_non_token vcs :
  str_in vcs SUPPORTED_VCS = false ->
  token vcs = false -> last vcs 0 <> LF ->
  validate_vcs vcs =
    ([(Stderr, VCS_WARNING vcs);
      (Stderr, if is_empty vcs then EMPTY_ERROR (py "VCS")
               else INVALID_ERROR (py "VCS") vcs)],
     Return false).
Proof.
  intros Hin Htok Hlast. apply validate_vcs_warning_then_error; [exact Hin|].
  pose proof (validate_component_no_newline vcs (py "VCS") Hlast) as Hiff.
  rewrite validate_component_eq in *.
  destruct (is_empty vcs); [reflexivity|].
  destruct (matched (re_match COMPONENT_REGEX vcs)); [|reflexivity].
  cbn [snd] in Hiff. rewrite (proj1 Hiff eq_refl) in Htok. discriminate.
Qed.

(** C10. [validate_vcs] on "gitea" followed by one newline: the string is
    outside the supported list and is not a token, the newline being
    outside [[a-z0-9-]], yet the warning is the only line printed, no
    structural error follows it, and the result is true. The membership
    test does come first, but the structural check that follows accepts
    the final newline. *)
Theorem validate_vcs_final_newline :
  let vcs := py "gitea" ++ [LF] in
  str_in vcs SUPPORTED_VCS = false /\
  token vcs = false /\ In LF vcs /\ in_class alnum_hyphen LF = false /\
  validate_vcs vcs = ([(Stderr, VCS_WARNING vcs)], Return true).
Proof.
  cbv zeta. split; [reflexivity|]. split; [reflexivity|].
  split; [simpl; tauto|]. split; [reflexivity|].
  vm_compute. reflexivity.
Qed.

(** * Generation *)

Section Generation.

Variable unicode_lower : str -> str.


Lemma in_class_alnum_hyphen c :
  in_class alnum_hyphen c = in_class alnum c || (c =? HYPHEN).
Proof. unfold in_class, alnum_hyphen, alnum. simpl. now rewrite !orb_false_r, orb_assoc. Qed.

Lemma token_char c :
  in_class alnum_hyphen c = true -> is_ascii c = true /\ ascii_lower c = c.
Proof.
  unfold in_class, alnum_hyphen, is_ascii, ascii_lower, ord. simpl.
  rewrite orb_false_r, !orb_true_iff, !andb_true_iff, !N.leb_le, N.eqb_eq, N.ltb_lt.
  intros H. split; [lia|].
  destruct ((65 <=? c) && (c <=? 90)) eqn:E; [|reflexivity].
  apply andb_true_iff in E. rewrite !N.leb_le in E. lia.
Qed.

(** Lowercasing leaves a token as it is. *)
Lemma lower_token w : token w = true -> lower unicode_lower w = w.
Proof.
  intros H. apply drawn_inv in H. destruct H as [_ H].
  assert (forallb is_ascii w = true /\ map ascii_lower w = w) as [Ha Hm].
  { induction w as [|c w IH]; [easy|].
    simpl in H. apply andb_true_iff in H. destruct H as [Hc Hw].
    apply token_char in Hc. destruct Hc as [Hc1 Hc2]. destruct (IH Hw) as [IH1 IH2].
    simpl. rewrite Hc1, Hc2, IH1, IH2. easy. }
  unfold lower. now rewrite Ha.
Qed.

(** On ASCII text [lower] maps A-Z to a-z and keeps everything else. *)
Lemma lower_ascii s :
  forallb is_ascii s = true -> lower unicode_lower s = map ascii_lower s.
Proof. intros H. unfold lower. now rewrite H. Qed.

Lemma format_BUILD_PATTERN v l f :
  format BUILD_PATTERN
    [(py "vcs", v); (py "language", l); (py "framework", f)]
  = Ok (v ++ py "-" ++ l ++ py "-" ++ f ++ py "-app-build-default").
Proof. reflexivity. Qed.

Lemma format_REVIEW_PATTERN v l f :
  format REVIEW_PATTERN
    [(py "vcs", v); (py "language", l); (py "framework", f)]
  = Ok (v ++ py "-" ++ l ++ py "-" ++ f ++ py "-app-review").
Proof. reflexivity. Qed.

Lemma generate_pipeline_names_eq vcs language framework :
  generate_pipeline_names unicode_lower vcs language framework =
    Ok (lower unicode_lower vcs ++ py "-" ++ lower unicode_lower language
          ++ py "-" ++ lower unicode_lower framework
          ++ py "-app-build-default",
        lower unicode_lower vcs ++ py "-" ++ lower unicode_lower language
          ++ py "-" ++ lower unicode_lower framework ++ py "-app-review").
Proof.
  unfold generate_pipeline_names.
  now rewrite format_BUILD_PATTERN, format_REVIEW_PATTERN.
Qed.

Lemma segment_of_token w :
  token w = true -> ~ In HYPHEN w -> segment w = true.
Proof.
  unfold token, segment, drawn. intros H Hn.
  apply andb_true_iff in H. destruct H as [He H]. rewrite He. cbn [andb].
  clear He. induction w as [|c w IH]; [reflexivity|].
  cbn [forallb] in *. apply andb_true_iff in H. destruct H as [Hc Hw].
  rewrite in_class_alnum_hyphen in Hc. apply orb_true_iff in Hc.
  destruct Hc as [Hc|Hc].
  - rewrite Hc. cbn [andb]. apply IH; [assumption|].
    intros Hin. apply Hn. now right.
  - apply N.eqb_eq in Hc. subst. exfalso. apply Hn. now left.
Qed.

(** C3. For any three strings [generate_pipeline_names] returns, without
    raising and without looking at what the strings hold, the two
    templates filled with the lowercased inputs. On ASCII text lowercasing
    maps A-Z to a-z, so "GitHub", "Java", "SpringBoot" give the names of
    "github", "java", "springboot"; the empty strings give names too. *)
Theorem generate_pipeline_names_spec vcs language framework :
  generate_pipeline_names unicode_lower vcs language framework =
    Ok (lower unicode_lower vcs ++ py "-" ++ lower unicode_lower language
          ++ py "-" ++ lower unicode_lower framework
          ++ py "-app-build-default",
        lower unicode_lower vcs ++ py "-" ++ lower unicode_lower language
          ++ py "-" ++ lower unicode_lower framework ++ py "-app-review") /\
  (forall s, forallb is_ascii s = true ->
     lower unicode_lower s = map ascii_lower s) /\
  generate_pipeline_names unicode_lower
    (py "GitHub") (py "Java") (py "SpringBoot") =
    Ok (py "github-java-springboot-app-build-default",
        py "github-java-springboot-app-review") /\
  generate_pipeline_names unicode_lower [] [] [] =
    Ok (py "---app-build-default", py "---app-review").
Proof.
  split; [apply generate_pipeline_names_eq|].
  split; [apply lower_ascii|].
  split; vm_compute; reflexivity.
Qed.

Lemma hyphens_generated v l f tail :
  hyphens (v ++ py "-" ++ l ++ py "-" ++ f ++ tail) =
  (hyphens v + hyphens l + hyphens f + 2 + hyphens tail)%nat.
Proof.
  rewrite !hyphens_app. change (hyphens (py "-")) with 1%nat. lia.
Qed.

(** C4. For tokens [v], [l], [f]: when none of them holds a hyphen, the
    generated build name validates as "build" and the generated review
    name as "review"; when [l] or [f] holds a hyphen, both generated names
    fail validation. *)
Theorem generate_validate_roundtrip v l f :
  token v = true -> token l = true -> token f = true ->
  exists build review,
    generate_pipeline_names unicode_lower v l f = Ok (build, review) /\
    (~ In HYPHEN v /\ ~ In HYPHEN l /\ ~ In HYPHEN f ->
     validate_pipeline_name build = (true, Some (py "build")) /\
     validate_pipeline_name review = (true, Some (py "review"))) /\
    (In HYPHEN l \/ In HYPHEN f ->
     validate_pipeline_name build = (false, None) /\
     validate_pipeline_name review = (false, None)).
Proof.
  intros Hv Hl Hf. rewrite generate_pipeline_names_eq.
  rewrite !(lower_token v Hv), !(lower_token l Hl), !(lower_token f Hf).
  eexists _, _. split; [reflexivity|]. split.
  - intros (Nv & Nl & Nf).
    pose proof (segment_of_token v Hv Nv) as Sv.
    pose proof (segment_of_token l Hl Nl) as Sl.
    pose proof (segment_of_token f Hf Nf) as Sf.
    split.
    + apply validate_pipeline_name_build.
      exists (v ++ py "-" ++ l ++ py "-" ++ f ++ py "-app-build-default"), [].
      split; [|split; [now left | now rewrite app_nil_r]].
      exists v, l, f, (py "default"). repeat split; auto.
    + apply validate_pipeline_name_review.
      exists (v ++ py "-" ++ l ++ py "-" ++ f ++ py "-app-review"), [].
      split; [|split; [now left | now rewrite app_nil_r]].
      exists v, l, f. repeat split; auto.
  - intros Hh.
    assert (0 < hyphens l + hyphens f)%nat as Hpos.
    { destruct Hh as [Hh|Hh]; apply hyphens_pos in Hh; lia. }
    split; rewrite validate_pipeline_name_eq.
    + destruct (matched (re_match BUILD_REGEX _)) eqn:Eb.
      { apply hyphens_BUILD_REGEX in Eb. rewrite hyphens_generated in Eb.
        change (hyphens (py "-app-build-default")) with 3%nat in Eb. lia. }
      destruct (matched (re_match REVIEW_REGEX _)) eqn:Er; [|reflexivity].
      apply hyphens_REVIEW_REGEX in Er. rewrite hyphens_generated in Er.
      change (hyphens (py "-app-build-default")) with 3%nat in Er. lia.
    + destruct (matched (re_match BUILD_REGEX _)) eqn:Eb.
      { apply last_BUILD_REGEX in Eb. rewrite !app_assoc in Eb.
        rewrite last_app_nonempty in Eb by discriminate.
        destruct Eb as [Eb|[Eb|Eb]]; discriminate. }
      destruct (matched (re_match REVIEW_REGEX _)) eqn:Er; [|reflexivity].
      apply hyphens_REVIEW_REGEX in Er. rewrite hyphens_generated in Er.
      change (hyphens (py "-app-review")) with 2%nat in Er. lia.
Qed.

End Generation.

Lemma generate_validate_roundtrip_witness :
  token (py "github") = true /\ token (py "java") = true /\
  token (py "springboot") = true /\
  exists build review,
    generate_pipeline_names (fun s => s)
      (py "github") (py "java") (py "springboot") = Ok (build, review) /\
    (~ In HYPHEN (py "github") /\ ~ In HYPHEN (py "java") /\
     ~ In HYPHEN (py "springboot") ->
     validate_pipeline_name build = (true, Some (py "build")) /\
     validate_pipeline_name review = (true, Some (py "review"))) /\
    (In HYPHEN (py "java") \/ In HYPHEN (py "springboot") ->
     validate_pipeline_name build = (false, None) /\
     validate_pipeline_name review = (false, None)).
Proof.
  split; [reflexivity|]. split; [reflexivity|]. split; [reflexivity|].
  apply (generate_validate_roundtrip (fun s => s)); reflexivity.
Defined.

Section Main.
Variable unicode_lower : str -> str.

Lemma validate_component_shape component component_name :
  exists (ok : bool) (diagnostic : str),
    validate_component component component_name =
      (if ok then [] else [(Stderr, diagnostic)], Return ok).
Proof.
  rewrite validate_component_eq.
  destruct (is_empty component); [exists false; eauto|].
  destruct (matched (re_match COMPONENT_REGEX component));
    [exists true, (@nil char) | exists false]; eauto.
Qed.

Lemma validate_vcs_shape vcs :
  exists (ok : bool) (diagnostic : str),
    validate_vcs vcs =
      ((if str_in vcs SUPPORTED_VCS then [] else [(Stderr, VCS_WARNING vcs)])
         ++ (if ok then [] else [(Stderr, diagnostic)]), Return ok).
Proof.
  rewrite validate_vcs_eq.
  destruct (validate_component_shape vcs (py "VCS")) as (ok & d & ->).
  now exists ok, d.
Qed.

Lemma bind_ret_l {A B} (a : A) (k : A -> M B) : bind (ret a) k = k a.
Proof. unfold bind, ret. now destruct (k a). Qed.

Ltac enter_generation Hmode :=
  unfold main;
  cbn [List.length Nat.ltb Nat.leb Nat.eqb negb when index nth_error lift];
  rewrite ?bind_ret_l; rewrite Hmode; cbn [when]; rewrite ?bind_ret_l.

(** In generation mode a failed check ends the run with status 1: stdout
    stays empty and stderr holds the diagnostic. *)
Lemma main_generation_rejected prog vcs language framework :
  str_eqb vcs (py "--validate") = false ->
  snd (validate_vcs vcs) = Return false \/
  snd (validate_component language (py "language")) = Return false \/
  snd (validate_component framework (py "framework")) = Return false ->
  let out := main unicode_lower [prog; vcs; language; framework] in
  snd out = SystemExit 1 /\
  lines_of Stdout (fst out) = [] /\
  lines_of Stderr (fst out) <> [].
Proof.
  intros Hmode Hrej. cbv zeta. enter_generation Hmode.
  destruct (validate_vcs_shape vcs) as (b1 & d1 & E1).
  destruct (validate_component_shape language (py "language"))
    as (b2 & d2 & E2).
  destruct (validate_component_shape framework (py "framework"))
    as (b3 & d3 & E3).
  rewrite E1, E2, E3 in *. rewrite generate_pipeline_names_eq.
  cbn [snd] in Hrej.
  destruct (str_in vcs SUPPORTED_VCS), b1, b2, b3;
    try (destruct Hrej as [H|[H|H]]; discriminate H);
    (split; [reflexivity | split; [reflexivity | discriminate]]).
Qed.

(** In generation mode, when the three checks pass, the run ends with
    status 0 and stdout holds the report with both names. *)
Lemma main_generation_accepted prog vcs language framework :
  str_eqb vcs (py "--validate") = false ->
  snd (validate_vcs vcs) = Return true ->
  snd (validate_component language (py "language")) = Return true ->
  snd (validate_component framework (py "framework")) = Return true ->
  let out := main unicode_lower [prog; vcs; language; framework] in
  exists build_name review_name,
    generate_pipeline_names unicode_lower vcs language framework
      = Ok (build_name, review_name) /\
    exit_code (snd out) = 0%Z /\
    lines_of Stdout (fst out) = REPORT vcs build_name review_name.
Proof.
  intros Hmode H1 H2 H3. cbv zeta. enter_generation Hmode.
  destruct (validate_vcs_shape vcs) as (b1 & d1 & E1).
  destruct (validate_component_shape language (py "language"))
    as (b2 & d2 & E2).
  destruct (validate_component_shape framework (py "framework"))
    as (b3 & d3 & E3).
  rewrite E1, E2, E3 in *. rewrite generate_pipeline_names_eq.
  cbn [snd] in H1, H2, H3.
  injection H1 as ->. injection H2 as ->. injection H3 as ->.
  eexists _, _. split; [reflexivity|].
  destruct (str_in vcs SUPPORTED_VCS); split; reflexivity.
Qed.

(** C7. Generation with the language "java" followed by one newline:
    the newline is outside [[a-z0-9-]], yet no diagnostic is printed, both
    names are printed with the newline inside them, and the run ends with
    status 0. *)
Theorem main_final_newline_accepted :
  let language := py "java" ++ [LF] in
  let out := main unicode_lower
               [py "generate-pipeline.py"; py "github"; language;
                py "springboot"] in
  In LF language /\ in_class alnum_hyphen LF = false /\
  snd out = Return tt /\ exit_code (snd out) = 0%Z /\
  lines_of Stderr (fst out) = [] /\
  lines_of Stdout (fst out) =
    REPORT (py "github")
      (py "github-java" ++ [LF] ++ py "-springboot-app-build-default")
      (py "github-java" ++ [LF] ++ py "-springboot-app-review").
Proof.
  cbv zeta. split; [simpl; tauto|]. split; [reflexivity|].
  repeat split; vm_compute; reflexivity.
Qed.

(** End to end: (gitlab, python, fastapi) gives the two names and
    status 0. *)
Example main_gitlab_python_fastapi :
  let out := main unicode_lower
               [py "generate-pipeline.py"; py "gitlab"; py "python";
                py "fastapi"] in
  exit_code (snd out) = 0%Z /\ lines_of Stderr (fst out) = [] /\
  lines_of Stdout (fst out) =
    REPORT (py "gitlab") (py "gitlab-python-fastapi-app-build-default")
      (py "gitlab-python-fastapi-app-review").
Proof. cbv zeta. repeat split; vm_compute; reflexivity. Qed.

Lemma str_eqb_neq a b : a <> b -> str_eqb a b = false.
Proof.
  intros H. destruct (str_eqb a b) eqn:E; [|reflexivity].
  apply str_eqb_eq in E. contradiction.
Qed.

(** C8. With [--validate] and a name, the run prints the verdict and ends
    with status 0 when [validate_pipeline_name] accepts the name and with
    status 1 when it does not; no exception is raised. A wrong number of
    arguments, in either mode or with no argument at all, prints a usage
    text on stdout and ends with status 1. *)
Theorem main_validation_and_usage :
  (forall prog name,
     let out := main unicode_lower [prog; py "--validate"; name] in
     exit_code (snd out)
       = (if fst (validate_pipeline_name name) then 0%Z else 1%Z) /\
     snd out
       = SystemExit (if fst (validate_pipeline_name name) then 0%Z else 1%Z) /\
     (fst (validate_pipeline_name name) = true ->
      fst out =
        [(Stdout, [CHECK_MARK] ++ py " Valid "
                  ++ str_of_optional (snd (validate_pipeline_name name))
                  ++ py " pipeline name: " ++ name)]) /\
     (fst (validate_pipeline_name name) = false ->
      lines_of Stdout (fst out) = [] /\
      hd_error (lines_of Stderr (fst out))
        = Some ([BALLOT_X] ++ py " Invalid pipeline name: " ++ name))) /\
  (forall argv,
     nth_error argv 1 = Some (py "--validate") -> List.length argv <> 3%nat ->
     main unicode_lower argv = ([(Stdout, USAGE_VALIDATE)], SystemExit 1%Z)) /\
  (forall argv arg1,
     nth_error argv 1 = Some arg1 -> arg1 <> py "--validate" ->
     List.length argv <> 4%nat ->
     main unicode_lower argv = ([(Stdout, USAGE_GENERATE)], SystemExit 1%Z)) /\
  (forall argv,
     (List.length argv < 2)%nat ->
     main unicode_lower argv = ([(Stdout, doc)], SystemExit 1%Z)).
Proof.
  split; [|split; [|split]].
  - intros prog name. cbv zeta. unfold main.
    cbn [List.length Nat.ltb Nat.leb Nat.eqb negb when index nth_error lift].
    rewrite ?bind_ret_l.
    change (str_eqb (py "--validate") (py "--validate")) with true.
    cbn [when]. rewrite ?bind_ret_l.
    destruct (validate_pipeline_name name) as [[|] kind]; cbn [fst snd].
    + split; [reflexivity|]. split; [reflexivity|].
      split; [reflexivity | discriminate].
    + split; [reflexivity|]. split; [reflexivity|].
      split; [discriminate | intros _; split; reflexivity].
  - intros [|a0 [|a1 rest]] Harg Hlen; try discriminate.
    injection Harg as ->.
    destruct rest as [|x [|y rest]]; [reflexivity | now elim Hlen | reflexivity].
  - intros [|a0 [|a1 rest]] arg1 Harg Hneq Hlen; try discriminate.
    injection Harg as ->. unfold main.
    cbn [List.length Nat.ltb Nat.leb negb when index nth_error lift].
    rewrite ?bind_ret_l. rewrite (str_eqb_neq _ _ Hneq). cbn [when].
    rewrite ?bind_ret_l.
    destruct rest as [|x [|y [|z rest]]];
      [reflexivity | reflexivity | now elim Hlen | reflexivity].
  - intros [|a0 [|a1 rest]] Hlen; [reflexivity | reflexivity |].
    simpl in Hlen. lia.
Qed.

End Main.

(** A hyphen inside the language: the generated names are rejected. *)
Example generate_validate_hyphenated :
  generate_pipeline_names (fun s => s) (py "github") (py "node-js") (py "npm")
    = Ok (py "github-node-js-npm-app-build-default",
          py "github-node-js-npm-app-review") /\
  validate_pipeline_name (py "github-node-js-npm-app-build-default")
    = (false, None) /\
  validate_pipeline_name (py "github-node-js-npm-app-review") = (false, None).
Proof. repeat split; vm_compute; reflexivity. Qed.

(** * Further properties of the validators *)

(** X1. [validate_component] answers true exactly on a token followed by
    nothing or by one newline. It always returns a boolean (no exit, no
    exception); it prints nothing when the answer is true and exactly one
    line, on stderr, when it is false. *)
Theorem validate_component_verdict component component_name :
  (snd (validate_component component component_name) = Return true <->
   exists w e, token w = true /\ end_or_newline e /\ component = w ++ e) /\
  (exists ok, snd (validate_component component component_name) = Return ok) /\
  (snd (validate_component component component_name) = Return true ->
   fst (validate_component component component_name) = []) /\
  (snd (validate_component component component_name) = Return false ->
   exists diagnostic,
     fst (validate_component component component_name)
       = [(Stderr, diagnostic)]).
Proof.
  split; [apply validate_component_true_iff|].
  rewrite validate_component_eq.
  destruct (is_empty component);
    [|destruct (matched (re_match COMPONENT_REGEX component))];
    cbn [fst snd]; repeat split; eauto; discriminate.
Qed.

(** X2. A component that holds a character outside [[a-z0-9-]] other than
    a newline is rejected, with the error that echoes the component. *)
Theorem validate_component_rejects component component_name c :
  In c component -> in_class alnum_hyphen c = false -> c <> LF ->
  validate_component component component_name =
    ([(Stderr, INVALID_ERROR component_name component)], Return false).
Proof.
  intros Hin Hc Hlf. rewrite validate_component_eq.
  destruct component as [|x component']; [destruct Hin|]. cbn [is_empty].
  destruct (matched (re_match COMPONENT_REGEX (x :: component'))) eqn:E;
    [|reflexivity].
  apply COMPONENT_REGEX_sound in E. destruct E as (w & e & Hw & He & Heq).
  rewrite Heq in Hin. apply in_app_or in Hin. destruct Hin as [Hin|Hin].
  - apply drawn_inv in Hw. destruct Hw as [_ Hw].
    rewrite forallb_forall in Hw. rewrite (Hw c Hin) in Hc. discriminate.
  - destruct He as [-> | ->]; [destruct Hin|].
    destruct Hin as [<-|[]]. now elim Hlf.
Qed.

Lemma validate_component_rejects_witness :
  In (ord "J") (py "Java!") /\ in_class alnum_hyphen (ord "J") = false /\
  ord "J" <> LF /\
  validate_component (py "Java!") (py "language") =
    ([(Stderr, INVALID_ERROR (py "language") (py "Java!"))], Return false).
Proof.
  split; [simpl; tauto|]. split; [reflexivity|]. split; [discriminate|].
  apply (validate_component_rejects (py "Java!") (py "language") (ord "J")).
  - simpl; tauto.
  - reflexivity.
  - discriminate.
Defined.

(** X3. [validate_pipeline_name] gives (true, "build") exactly on a full
    build name followed by nothing or by one newline, (true, "review")
    exactly on a full review name followed by nothing or by one newline,
    and (false, None) on every other string; there is no fourth answer. *)
Theorem validate_pipeline_name_classifies name :
  (validate_pipeline_name name = (true, Some (py "build")) <->
   exists n e, full_build_name n /\ end_or_newline e /\ name = n ++ e) /\
  (validate_pipeline_name name = (true, Some (py "review")) <->
   exists n e, full_review_name n /\ end_or_newline e /\ name = n ++ e) /\
  (validate_pipeline_name name = (false, None) <->
   ~ (exists n e, full_build_name n /\ end_or_newline e /\ name = n ++ e) /\
   ~ (exists n e, full_review_name n /\ end_or_newline e /\ name = n ++ e)) /\
  (validate_pipeline_name name = (true, Some (py "build")) \/
   validate_pipeline_name name = (true, Some (py "review")) \/
   validate_pipeline_name name = (false, None)).
Proof.
  split; [apply validate_pipeline_name_build|].
  split; [apply validate_pipeline_name_review|].
  rewrite <- validate_pipeline_name_build, <- validate_pipeline_name_review.
  rewrite validate_pipeline_name_eq.
  destruct (matched (re_match BUILD_REGEX name));
    [|destruct (matched (re_match REVIEW_REGEX name))].
  - split; [|now left]. split; [discriminate|]. intros [H _]. now elim H.
  - split; [|now right; left]. split; [discriminate|]. intros [_ H]. now elim H.
  - split; [|now right; right]. split; [|reflexivity].
    intros _. split; discriminate.
Qed.

(** X4. An accepted pipeline name has kind "build" and five hyphens, or
    kind "review" and four hyphens. *)
Theorem validate_pipeline_name_hyphens name kind :
  validate_pipeline_name name = (true, kind) ->
  (kind = Some (py "build") /\ hyphens name = 5%nat) \/
  (kind = Some (py "review") /\ hyphens name = 4%nat).
Proof.
  rewrite validate_pipeline_name_eq.
  destruct (matched (re_match BUILD_REGEX name)) eqn:Eb.
  - intros H. injection H as <-. left. split; [reflexivity|].
    now apply hyphens_BUILD_REGEX.
  - destruct (matched (re_match REVIEW_REGEX name)) eqn:Er; [|discriminate].
    intros H. injection H as <-. right. split; [reflexivity|].
    now apply hyphens_REVIEW_REGEX.
Qed.

Lemma validate_pipeline_name_hyphens_witness :
  validate_pipeline_name (py "gitlab-python-fastapi-app-build-edp")
    = (true, Some (py "build")) /\
  ((Some (py "build") = Some (py "build") /\
    hyphens (py "gitlab-python-fastapi-app-build-edp") = 5%nat) \/
   (Some (py "build") = Some (py "review") /\
    hyphens (py "gitlab-python-fastapi-app-build-edp") = 4%nat)).
Proof.
  split; [vm_compute; reflexivity|].
  apply (validate_pipeline_name_hyphens
           (py "gitlab-python-fastapi-app-build-edp") (Some (py "build"))).
  vm_compute. reflexivity.
Defined.

Lemma segment_chars w :
  segment w = true -> forallb (in_class alnum_hyphen) w = true.
Proof.
  intros H. apply drawn_inv in H. destruct H as [_ H].
  rewrite forallb_forall in *. intros c Hc.
  rewrite in_class_alnum_hyphen, (H c Hc). reflexivity.
Qed.

Lemma full_build_name_token n : full_build_name n -> token n = true.
Proof.
  intros (a & b & c & t & Ha & Hb & Hc & Ht & ->).
  unfold token, drawn. apply andb_true_iff. split.
  - destruct a; [discriminate Ha | reflexivity].
  - rewrite !forallb_app.
    rewrite (segment_chars a), (segment_chars b), (segment_chars c)
      by assumption.
    destruct Ht as [-> | ->]; reflexivity.
Qed.

Lemma full_review_name_token n : full_review_name n -> token n = true.
Proof.
  intros (a & b & c & Ha & Hb & Hc & ->).
  unfold token, drawn. apply andb_true_iff. split.
  - destruct a; [discriminate Ha | reflexivity].
  - rewrite !forallb_app.
    rewrite (segment_chars a), (segment_chars b), (segment_chars c)
      by assumption. reflexivity.
Qed.

(** X5. Every name [validate_pipeline_name] accepts is also accepted,
    silently, by [validate_component]: the two validators agree on the
    alphabet and on the final newline. *)
Theorem valid_pipeline_name_is_component name component_name :
  fst (validate_pipeline_name name) = true ->
  validate_component name component_name = ([], Return true).
Proof.
  rewrite validate_pipeline_name_eq. intros H.
  assert (exists w e, token w = true /\ end_or_newline e /\ name = w ++ e)
    as (w & e & Hw & He & ->).
  { destruct (matched (re_match BUILD_REGEX name)) eqn:Eb.
    - apply BUILD_REGEX_sound in Eb. destruct Eb as (n & e & Hn & He & ->).
      exists n, e. auto using full_build_name_token.
    - destruct (matched (re_match REVIEW_REGEX name)) eqn:Er; [|discriminate].
      apply REVIEW_REGEX_sound in Er. destruct Er as (n & e & Hn & He & ->).
      exists n, e. auto using full_review_name_token. }
  rewrite validate_component_eq, (COMPONENT_REGEX_complete w e Hw He).
  destruct w; [discriminate Hw | reflexivity].
Qed.

Lemma valid_pipeline_name_is_component_witness :
  fst (validate_pipeline_name (py "github-java-springboot-app-review")) = true
  /\ validate_component (py "github-java-springboot-app-review") (py "VCS")
     = ([], Return true).
Proof.
  split; [vm_compute; reflexivity|].
  apply (valid_pipeline_name_is_component
           (py "github-java-springboot-app-review") (py "VCS")).
  vm_compute. reflexivity.
Defined.

Lemma last_REVIEW_REGEX s :
  matched (re_match REVIEW_REGEX s) = true ->
  last s 0 = ord "w" \/ last s 0 = LF.
Proof.
  intros H. apply REVIEW_REGEX_sound in H. destruct H as (n & e & Hn & He & ->).
  destruct He as [-> | ->].
  - rewrite app_nil_r. apply last_full_review in Hn. tauto.
  - rewrite last_last. auto.
Qed.

(** Text before the first hyphen is determined by the whole. *)
Lemma split_at_hyphen x : forall x' y y',
  hyphens x = 0%nat -> hyphens x' = 0%nat ->
  x ++ HYPHEN :: y = x' ++ HYPHEN :: y' -> x = x' /\ y = y'.
Proof.
  unfold hyphens.
  induction x as [|c x IH]; intros [|c' x'] y y' Hx Hx' Heq;
    cbn [app filter] in *.
  - injection Heq as ->. auto.
  - injection Heq as <- _. rewrite N.eqb_refl in Hx'. discriminate.
  - injection Heq as -> _. rewrite N.eqb_refl in Hx. discriminate.
  - injection Heq as -> Heq.
    destruct (HYPHEN =? c'); [discriminate|].
    destruct (IH x' y y' Hx Hx' Heq) as [-> ->]. auto.
Qed.

Lemma generated_segments V L F tail a b c tail' :
  hyphens V = 0%nat -> hyphens L = 0%nat -> hyphens F = 0%nat ->
  segment a = true -> segment b = true -> segment c = true ->
  V ++ HYPHEN :: L ++ HYPHEN :: F ++ HYPHEN :: tail
    = a ++ HYPHEN :: b ++ HYPHEN :: c ++ HYPHEN :: tail' ->
  segment V = true /\ segment L = true /\ segment F = true.
Proof.
  intros HV HL HF Ha Hb Hc Heq.
  apply split_at_hyphen in Heq; auto using hyphens_segment.
  destruct Heq as [-> Heq].
  apply split_at_hyphen in Heq; auto using hyphens_segment.
  destruct Heq as [-> Heq].
  apply split_at_hyphen in Heq; auto using hyphens_segment.
  destruct Heq as [-> _]. auto.
Qed.

Lemma BUILD_REGEX_generated V L F :
  matched (re_match BUILD_REGEX
             (V ++ py "-" ++ L ++ py "-" ++ F ++ py "-app-build-default"))
    = true ->
  segment V = true /\ segment L = true /\ segment F = true.
Proof.
  intros H. pose proof (hyphens_BUILD_REGEX _ H) as Hh.
  rewrite hyphens_generated in Hh.
  change (hyphens (py "-app-build-default")) with 3%nat in Hh.
  apply BUILD_REGEX_sound in H.
  destruct H as (n & e & (a & b & c & t & Ha & Hb & Hc & Ht & ->) & He & Heq).
  rewrite <- ?app_assoc in Heq.
  apply (generated_segments V L F (py "app-build-default") a b c
           (py "app-build-" ++ t ++ e)); auto; lia.
Qed.

Lemma REVIEW_REGEX_generated V L F :
  matched (re_match REVIEW_REGEX
             (V ++ py "-" ++ L ++ py "-" ++ F ++ py "-app-review"))
    = true ->
  segment V = true /\ segment L = true /\ segment F = true.
Proof.
  intros H. pose proof (hyphens_REVIEW_REGEX _ H) as Hh.
  rewrite hyphens_generated in Hh.
  change (hyphens (py "-app-review")) with 2%nat in Hh.
  apply REVIEW_REGEX_sound in H.
  destruct H as (n & e & (a & b & c & Ha & Hb & Hc & ->) & He & Heq).
  rewrite <- ?app_assoc in Heq.
  apply (generated_segments V L F (py "app-review") a b c
           (py "app-review" ++ e)); auto; lia.
Qed.

Section Roundtrip.

Variable unicode_lower : str -> str.

(** X6. For any three strings, the generated build name validates as
    "build" and the generated review name as "review" exactly when each
    lowercased input is a non-empty run of [[a-z0-9]]; otherwise both are
    invalid. A generated name is never taken for the other kind. *)
Theorem generate_validate_criterion v l f :
  exists build review,
    generate_pipeline_names unicode_lower v l f = Ok (build, review) /\
    validate_pipeline_name build =
      (if segment (lower unicode_lower v) && segment (lower unicode_lower l)
          && segment (lower unicode_lower f)
       then (true, Some (py "build")) else (false, None)) /\
    validate_pipeline_name review =
      (if segment (lower unicode_lower v) && segment (lower unicode_lower l)
          && segment (lower unicode_lower f)
       then (true, Some (py "review")) else (false, None)).
Proof.
  rewrite generate_pipeline_names_eq.
  set (V := lower unicode_lower v). set (L := lower unicode_lower l).
  set (F := lower unicode_lower f).
  eexists _, _. split; [reflexivity|].
  destruct (segment V && segment L && segment F) eqn:E.
  - apply andb_true_iff in E. destruct E as [E SF].
    apply andb_true_iff in E. destruct E as [SV SL]. split.
    + apply validate_pipeline_name_build.
      exists (V ++ py "-" ++ L ++ py "-" ++ F ++ py "-app-build-default"), [].
      split; [|split; [now left | now rewrite app_nil_r]].
      exists V, L, F, (py "default"). repeat split; auto.
    + apply validate_pipeline_name_review.
      exists (V ++ py "-" ++ L ++ py "-" ++ F ++ py "-app-review"), [].
      split; [|split; [now left | now rewrite app_nil_r]].
      exists V, L, F. repeat split; auto.
  - split; rewrite validate_pipeline_name_eq.
    + destruct (matched (re_match BUILD_REGEX _)) eqn:Eb.
      { apply BUILD_REGEX_generated in Eb. destruct Eb as (SV & SL & SF).
        rewrite SV, SL, SF in E. discriminate. }
      destruct (matched (re_match REVIEW_REGEX _)) eqn:Er; [|reflexivity].
      apply last_REVIEW_REGEX in Er. rewrite !app_assoc in Er.
      rewrite last_app_nonempty in Er by discriminate.
      destruct Er; discriminate.
    + destruct (matched (re_match BUILD_REGEX _)) eqn:Eb.
      { apply last_BUILD_REGEX in Eb. rewrite !app_assoc in Eb.
        rewrite last_app_nonempty in Eb by discriminate.
        destruct Eb as [Eb|[Eb|Eb]]; discriminate. }
      destruct (matched (re_match REVIEW_REGEX _)) eqn:Er; [|reflexivity].
      apply REVIEW_REGEX_generated in Er. destruct Er as (SV & SL & SF).
      rewrite SV, SL, SF in E. discriminate.
Qed.

End Roundtrip.

(** * Further properties of [main] *)

Ltac run_main :=
  unfold main;
  cbn [List.length Nat.ltb Nat.leb Nat.eqb negb when index nth_error lift];
  rewrite ?bind_ret_l.

Ltac pick :=
  cbn [In];
  first [ left; reflexivity
        | right; left; reflexivity
        | right; right; left; reflexivity
        | right; right; right; left; reflexivity ].

Ltac run_generation Hmode :=
  run_main; rewrite Hmode; cbn [when]; rewrite ?bind_ret_l.

Section MainFacts.

Variable unicode_lower : str -> str.

(** Lowercasing changes nothing in a string [validate_component] accepts. *)
Lemma lower_accepted component component_name :
  snd (validate_component component component_name) = Return true ->
  lower unicode_lower component = component.
Proof.
  intros H. apply validate_component_true_iff in H.
  destruct H as (w & e & Hw & He & ->).
  apply drawn_inv in Hw. destruct Hw as [_ Hw].
  assert (forall s, forallb (fun c => is_ascii c && (ascii_lower c =? c)) s
                    = true -> lower unicode_lower s = s) as Hfix.
  { intros s Hs. unfold lower.
    assert (forallb is_ascii s = true /\ map ascii_lower s = s) as [-> Hm];
      [|exact Hm].
    induction s as [|c s IH]; [easy|].
    cbn [forallb map] in *. apply andb_true_iff in Hs. destruct Hs as [Hc Hs].
    apply andb_true_iff in Hc. destruct Hc as [Hc1 Hc2].
    apply N.eqb_eq in Hc2. destruct (IH Hs) as [IH1 IH2].
    rewrite Hc1, Hc2, IH1, IH2. easy. }
  apply Hfix. rewrite forallb_app. apply andb_true_iff. split.
  - rewrite forallb_forall in *. intros c Hc.
    destruct (token_char c (Hw c Hc)) as [-> ->]. now rewrite N.eqb_refl.
  - destruct He as [-> | ->]; reflexivity.
Qed.


(** X8. When the three checks pass, generation prints the seven report
    lines on stdout with the names built from the components exactly as
    supplied (lowercasing changes nothing in an accepted component), at
    most the VCS warning on stderr, and returns normally. An unsupported
    but well-formed VCS is therefore not fatal. *)
Theorem main_generation_report prog vcs language framework :
  str_eqb vcs (py "--validate") = false ->
  snd (validate_vcs vcs) = Return true ->
  snd (validate_component language (py "language")) = Return true ->
  snd (validate_component framework (py "framework")) = Return true ->
  main unicode_lower [prog; vcs; language; framework] =
    ((if str_in vcs SUPPORTED_VCS then [] else [(Stderr, VCS_WARNING vcs)])
       ++ map (fun line => (Stdout, line))
            (REPORT vcs
               (vcs ++ py "-" ++ language ++ py "-" ++ framework
                  ++ py "-app-build-default")
               (vcs ++ py "-" ++ language ++ py "-" ++ framework
                  ++ py "-app-review")),
     Return tt).
Proof.
  intros Hmode H1 H2 H3. run_generation Hmode.
  rewrite generate_pipeline_names_eq.
  assert (snd (validate_component vcs (py "VCS")) = Return true) as H1'.
  { now rewrite validate_vcs_eq in H1. }
  rewrite (lower_accepted vcs _ H1'), (lower_accepted language _ H2),
    (lower_accepted framework _ H3).
  destruct (validate_vcs_shape vcs) as (b1 & d1 & E1).
  destruct (validate_component_shape language (py "language"))
    as (b2 & d2 & E2).
  destruct (validate_component_shape framework (py "framework"))
    as (b3 & d3 & E3).
  rewrite E1, E2, E3 in *. cbn [snd] in H1, H2, H3.
  injection H1 as ->. injection H2 as ->. injection H3 as ->.
  destruct (str_in vcs SUPPORTED_VCS); reflexivity.
Qed.

(** X9. Every run of [main], on any argument list, ends in one of three
    ways and never with an uncaught exception: status 1 with stdout empty
    or holding only a usage text; status 0 from validation mode with one
    verdict line on stdout and nothing on stderr; or a normal return from
    generation mode with four arguments, seven lines on stdout and at most
    the VCS warning on stderr. *)
Theorem main_outcomes argv :
  (snd (main unicode_lower argv) = SystemExit 1%Z /\
   In (lines_of Stdout (fst (main unicode_lower argv)))
      [[]; [doc]; [USAGE_VALIDATE]; [USAGE_GENERATE]]) \/
  (snd (main unicode_lower argv) = SystemExit 0%Z /\
   nth_error argv 1 = Some (py "--validate") /\
   lines_of Stderr (fst (main unicode_lower argv)) = [] /\
   List.length (lines_of Stdout (fst (main unicode_lower argv))) = 1%nat) \/
  (snd (main unicode_lower argv) = Return tt /\
   List.length argv = 4%nat /\
   In (lines_of Stderr (fst (main unicode_lower argv)))
      [[]; [VCS_WARNING (nth 1 argv [])]] /\
   List.length (lines_of Stdout (fst (main unicode_lower argv))) = 7%nat).
Proof.
  destruct argv as [|prog [|arg1 rest]].
  - left. split; [reflexivity | pick].
  - left. split; [reflexivity | pick].
  - destruct (str_eqb arg1 (py "--validate")) eqn:Hmode.
    + apply str_eqb_eq in Hmode. subst arg1.
      destruct rest as [|name [|extra rest]].
      * left. split; [reflexivity | pick].
      * run_main.
        change (str_eqb (py "--validate") (py "--validate")) with true.
        cbn [when]. rewrite ?bind_ret_l.
        destruct (validate_pipeline_name name) as [[|] kind].
        -- right; left. repeat split; reflexivity.
        -- left. split; [reflexivity | pick].
      * left. split; [reflexivity | pick].
    + destruct rest as [|language [|framework [|extra rest]]].
      * left. run_generation Hmode. split; [reflexivity | pick].
      * left. run_generation Hmode. split; [reflexivity | pick].
      * run_generation Hmode.
        destruct (validate_vcs_shape arg1) as (b1 & d1 & E1).
        destruct (validate_component_shape language (py "language"))
          as (b2 & d2 & E2).
        destruct (validate_component_shape framework (py "framework"))
          as (b3 & d3 & E3).
        rewrite E1, E2, E3. rewrite generate_pipeline_names_eq.
        destruct b1, b2, b3;
          try (left; destruct (str_in arg1 SUPPORTED_VCS);
               (split; [reflexivity | pick])).
        right; right. destruct (str_in arg1 SUPPORTED_VCS);
          (split; [reflexivity|]; split; [reflexivity|];
           split; [pick | reflexivity]).
      * left. run_generation Hmode. split; [reflexivity | pick].
Qed.

End MainFacts.


Lemma main_generation_report_witness :
  str_eqb (py "gitea") (py "--validate") = false /\
  snd (validate_vcs (py "gitea")) = Return true /\
  snd (validate_component (py "go") (py "language")) = Return true /\
  snd (validate_component (py "gin") (py "framework")) = Return true /\
  main (fun s => s) [py "prog"; py "gitea"; py "go"; py "gin"] =
    ([(Stderr, VCS_WARNING (py "gitea"))]
       ++ map (fun line => (Stdout, line))
            (REPORT (py "gitea") (py "gitea-go-gin-app-build-default")
               (py "gitea-go-gin-app-review")),
     Return tt).
Proof.
  split; [reflexivity|]. split; [vm_compute; reflexivity|].
  split; [vm_compute; reflexivity|]. split; [vm_compute; reflexivity|].
  apply (main_generation_report (fun s => s)
           (py "prog") (py "gitea") (py "go") (py "gin"));
    vm_compute; reflexivity.
Defined.

(** * Composition of generation and validation *)

Section Composition.

Variable unicode_lower : str -> str.

(** X10. The names generated from three hyphen-free alphanumeric
    components are the ones the validation mode of the script accepts:
    fed back with [--validate], the build name gets the "build" verdict
    and the review name the "review" verdict, each with status 0. *)
Theorem generated_names_pass_validate_mode prog v l f :
  segment v = true -> segment l = true -> segment f = true ->
  exists build review,
    generate_pipeline_names unicode_lower v l f = Ok (build, review) /\
    main unicode_lower [prog; py "--validate"; build] =
      ([(Stdout, [CHECK_MARK] ++ py " Valid build pipeline name: " ++ build)],
       SystemExit 0%Z) /\
    main unicode_lower [prog; py "--validate"; review] =
      ([(Stdout,
         [CHECK_MARK] ++ py " Valid review pipeline name: " ++ review)],
       SystemExit 0%Z).
Proof.
  intros Sv Sl Sf.
  assert (forall w, segment w = true -> token w = true) as Htok.
  { intros w Hw. unfold token, drawn. rewrite (segment_chars w Hw).
    destruct w; [discriminate Hw | reflexivity]. }
  rewrite generate_pipeline_names_eq.
  rewrite !(lower_token unicode_lower v (Htok v Sv)),
          !(lower_token unicode_lower l (Htok l Sl)),
          !(lower_token unicode_lower f (Htok f Sf)).
  eexists _, _. split; [reflexivity|].
  assert (validate_pipeline_name
            (v ++ py "-" ++ l ++ py "-" ++ f ++ py "-app-build-default")
          = (true, Some (py "build"))) as Hb.
  { apply validate_pipeline_name_build.
    exists (v ++ py "-" ++ l ++ py "-" ++ f ++ py "-app-build-default"), [].
    split; [|split; [now left | now rewrite app_nil_r]].
    exists v, l, f, (py "default"). repeat split; auto. }
  assert (validate_pipeline_name
            (v ++ py "-" ++ l ++ py "-" ++ f ++ py "-app-review")
          = (true, Some (py "review"))) as Hr.
  { apply validate_pipeline_name_review.
    exists (v ++ py "-" ++ l ++ py "-" ++ f ++ py "-app-review"), [].
    split; [|split; [now left | now rewrite app_nil_r]].
    exists v, l, f. repeat split; auto. }
  split; run_main;
    change (str_eqb (py "--validate") (py "--validate")) with true;
    cbn [when]; rewrite ?bind_ret_l.
  - rewrite Hb. reflexivity.
  - rewrite Hr. reflexivity.
Qed.

(** X13. When the lowercased VCS and language hold no hyphen, the
    generated pair of names determines the three lowercased components:
    two inputs with the same names have the same lowercased VCS, language
    and framework. *)
Theorem generate_pipeline_names_injective v l f v' l' f' :
  hyphens (lower unicode_lower v) = 0%nat ->
  hyphens (lower unicode_lower l) = 0%nat ->
  hyphens (lower unicode_lower v') = 0%nat ->
  hyphens (lower unicode_lower l') = 0%nat ->
  generate_pipeline_names unicode_lower v l f
    = generate_pipeline_names unicode_lower v' l' f' ->
  lower unicode_lower v = lower unicode_lower v' /\
  lower unicode_lower l = lower unicode_lower l' /\
  lower unicode_lower f = lower unicode_lower f'.
Proof.
  intros Hv Hl Hv' Hl'. rewrite !generate_pipeline_names_eq.
  intros Heq. injection Heq as _ Heq.
  apply split_at_hyphen in Heq; auto. destruct Heq as [-> Heq].
  apply split_at_hyphen in Heq; auto. destruct Heq as [-> Heq].
  apply app_inv_tail in Heq. auto.
Qed.

End Composition.

(** With a hyphen in the VCS or the language the names do collide. *)
Example generate_pipeline_names_collision :
  generate_pipeline_names (fun s => s) (py "a-b") (py "c") (py "d")
  = generate_pipeline_names (fun s => s) (py "a") (py "b-c") (py "d").
Proof. vm_compute. reflexivity. Qed.

Lemma generated_names_pass_validate_mode_witness :
  segment (py "gitlab") = true /\ segment (py "python") = true /\
  segment (py "fastapi") = true /\
  exists build review,
    generate_pipeline_names (fun s => s)
      (py "gitlab") (py "python") (py "fastapi") = Ok (build, review) /\
    main (fun s => s) [py "prog"; py "--validate"; build] =
      ([(Stdout, [CHECK_MARK] ++ py " Valid build pipeline name: " ++ build)],
       SystemExit 0%Z) /\
    main (fun s => s) [py "prog"; py "--validate"; review] =
      ([(Stdout,
         [CHECK_MARK] ++ py " Valid review pipeline name: " ++ review)],
       SystemExit 0%Z).
Proof.
  split; [reflexivity|]. split; [reflexivity|]. split; [reflexivity|].
  apply (generated_names_pass_validate_mode (fun s => s) (py "prog"));
    reflexivity.
Defined.

Lemma generate_pipeline_names_injective_witness :
  hyphens (lower (fun s => s) (py "GitHub")) = 0%nat /\
  hyphens (lower (fun s => s) (py "Java")) = 0%nat /\
  hyphens (lower (fun s => s) (py "github")) = 0%nat /\
  hyphens (lower (fun s => s) (py "java")) = 0%nat /\
  generate_pipeline_names (fun s => s) (py "GitHub") (py "Java") (py "Maven")
    = generate_pipeline_names (fun s => s)
        (py "github") (py "java") (py "maven") /\
  lower (fun s => s) (py "GitHub") = lower (fun s => s) (py "github") /\
  lower (fun s => s) (py "Java") = lower (fun s => s) (py "java") /\
  lower (fun s => s) (py "Maven") = lower (fun s => s) (py "maven").
Proof.
  split; [reflexivity|]. split; [reflexivity|]. split; [reflexivity|].
  split; [reflexivity|]. split; [vm_compute; reflexivity|].
  apply (generate_pipeline_names_injective (fun s => s)
           (py "GitHub") (py "Java") (py "Maven")
           (py "github") (py "java") (py "maven"));
    vm_compute; reflexivity.
Defined.

(** * The supported list and the final newline *)

(** X11. [validate_vcs] is silent and true exactly on the three supported
    names; on every other string the first thing it prints is the warning
    on stderr, so its stderr output is not empty. *)
Theorem validate_vcs_silent_iff vcs :
  (validate_vcs vcs = ([], Return true) <->
   vcs = py "github" \/ vcs = py "gitlab" \/ vcs = py "bitbucket") /\
  (~ (vcs = py "github" \/ vcs = py "gitlab" \/ vcs = py "bitbucket") ->
   hd_error (fst (validate_vcs vcs)) = Some (Stderr, VCS_WARNING vcs) /\
   lines_of Stderr (fst (validate_vcs vcs)) <> []).
Proof.
  assert (str_in vcs SUPPORTED_VCS = true <->
          vcs = py "github" \/ vcs = py "gitlab" \/ vcs = py "bitbucket")
    as Hmem.
  { rewrite str_in_iff. unfold SUPPORTED_VCS. simpl. intuition congruence. }
  split; [split|].
  - rewrite validate_vcs_eq. intros H. apply (f_equal fst) in H.
    cbn [fst] in H.
    destruct (str_in vcs SUPPORTED_VCS) eqn:E; [|discriminate].
    now apply Hmem.
  - intros [-> | [-> | ->]]; vm_compute; reflexivity.
  - intros Hout. rewrite validate_vcs_eq.
    destruct (str_in vcs SUPPORTED_VCS) eqn:E.
    + elim Hout. now apply Hmem.
    + cbn [fst]. split; [reflexivity | discriminate].
Qed.

Lemma last_in (s : str) d : s <> [] -> In (last s d) s.
Proof.
  induction s as [|c s IH]; [easy|]. intros _.
  destruct s as [|c' s]; [now left|].
  right. apply IH. discriminate.
Qed.

Lemma last_token w : token w = true -> last w 0 <> LF.
Proof.
  intros H. apply drawn_inv in H. destruct H as [Hne H].
  rewrite forallb_forall in H. intros Hl.
  pose proof (H _ (last_in w 0 Hne)) as Hc. rewrite Hl in Hc. discriminate.
Qed.

(** Appending one newline to a string that does not end in one does not
    change whether it is "a [P] followed by nothing or one newline", for
    any [P] whose members do not end in a newline; appending two never
    gives such a string. *)
Lemma newline_shift (P : str -> Prop) s :
  (forall n, P n -> last n 0 <> LF) -> last s 0 <> LF ->
  ((exists n e, P n /\ end_or_newline e /\ s ++ [LF] = n ++ e) <->
   (exists n e, P n /\ end_or_newline e /\ s = n ++ e)) /\
  ~ (exists n e, P n /\ end_or_newline e /\ s ++ [LF; LF] = n ++ e).
Proof.
  intros HP Hs. split; [split|].
  - intros (n & e & Hn & [-> | ->] & Heq).
    + rewrite app_nil_r in Heq. subst n. apply HP in Hn.
      now rewrite last_last in Hn.
    + apply app_inj_tail in Heq. destruct Heq as [-> _].
      exists n, []. rewrite app_nil_r. repeat split; auto. now left.
  - intros (n & e & Hn & [-> | ->] & ->).
    + rewrite app_nil_r. exists n, [LF]. repeat split; auto. now right.
    + now rewrite last_last in Hs.
  - intros (n & e & Hn & [-> | ->] & Heq).
    + rewrite app_nil_r in Heq. subst n. apply HP in Hn.
      change [LF; LF] with ([LF] ++ [LF]) in Hn.
      now rewrite app_assoc, last_last in Hn.
    + change [LF; LF] with ([LF] ++ [LF]) in Heq. rewrite app_assoc in Heq.
      apply app_inj_tail in Heq. destruct Heq as [<- _]. apply HP in Hn.
      now rewrite last_last in Hn.
Qed.

Lemma full_build_name_last n : full_build_name n -> last n 0 <> LF.
Proof. intros H. apply last_full_build in H. destruct H as [-> | ->]; discriminate. Qed.

Lemma full_review_name_last n : full_review_name n -> last n 0 <> LF.
Proof. intros H. apply last_full_review in H. rewrite H. discriminate. Qed.

Lemma bool_eq_iff (a b : bool) : (a = true <-> b = true) -> a = b.
Proof. destruct a, b; intuition congruence. Qed.

(** X12. One final newline is invisible to both validators and a second
    one is not: for a string that does not end in a newline, appending one
    newline changes neither the answer of [validate_pipeline_name] nor the
    boolean of [validate_component], and appending two makes both reject. *)
Theorem final_newline_ignored s component_name :
  last s 0 <> LF ->
  validate_pipeline_name (s ++ [LF]) = validate_pipeline_name s /\
  snd (validate_component (s ++ [LF]) component_name)
    = snd (validate_component s component_name) /\
  validate_pipeline_name (s ++ [LF; LF]) = (false, None) /\
  snd (validate_component (s ++ [LF; LF]) component_name) = Return false.
Proof.
  intros Hs.
  destruct (newline_shift full_build_name s full_build_name_last Hs)
    as [Hb1 Hb2].
  destruct (newline_shift full_review_name s full_review_name_last Hs)
    as [Hr1 Hr2].
  destruct (newline_shift (fun w => token w = true) s last_token Hs)
    as [Ht1 Ht2].
  assert (forall x, matched (re_match BUILD_REGEX x) = true <->
            exists n e, full_build_name n /\ end_or_newline e /\ x = n ++ e)
    as HB.
  { intros x. split; [apply BUILD_REGEX_sound|].
    intros (n & e & Hn & He & ->). now apply BUILD_REGEX_complete. }
  assert (forall x, matched (re_match REVIEW_REGEX x) = true <->
            exists n e, full_review_name n /\ end_or_newline e /\ x = n ++ e)
    as HR.
  { intros x. split; [apply REVIEW_REGEX_sound|].
    intros (n & e & Hn & He & ->). now apply REVIEW_REGEX_complete. }
  assert (forall x, matched (re_match COMPONENT_REGEX x) = true <->
            exists n e, token n = true /\ end_or_newline e /\ x = n ++ e)
    as HC.
  { intros x. split; [apply COMPONENT_REGEX_sound|].
    intros (n & e & Hn & He & ->). now apply COMPONENT_REGEX_complete. }
  split; [|split; [|split]].
  - rewrite !validate_pipeline_name_eq.
    rewrite (bool_eq_iff (matched (re_match BUILD_REGEX (s ++ [LF])))
               (matched (re_match BUILD_REGEX s)))
      by (rewrite !HB; exact Hb1).
    rewrite (bool_eq_iff (matched (re_match REVIEW_REGEX (s ++ [LF])))
               (matched (re_match REVIEW_REGEX s)))
      by (rewrite !HR; exact Hr1).
    reflexivity.
  - rewrite !validate_component_eq.
    rewrite (bool_eq_iff (matched (re_match COMPONENT_REGEX (s ++ [LF])))
               (matched (re_match COMPONENT_REGEX s)))
      by (rewrite !HC; exact Ht1).
    destruct s as [|c s'].
    + vm_compute. reflexivity.
    + cbn [app is_empty].
      destruct (matched (re_match COMPONENT_REGEX (c :: s'))); reflexivity.
  - rewrite validate_pipeline_name_eq.
    destruct (matched (re_match BUILD_REGEX (s ++ [LF; LF]))) eqn:Eb.
    { apply HB in Eb. contradiction. }
    destruct (matched (re_match REVIEW_REGEX (s ++ [LF; LF]))) eqn:Er.
    { apply HR in Er. contradiction. }
    reflexivity.
  - rewrite validate_component_eq.
    destruct (is_empty (s ++ [LF; LF])); [reflexivity|].
    destruct (matched (re_match COMPONENT_REGEX (s ++ [LF; LF]))) eqn:Ec.
    { apply HC in Ec. contradiction. }
    reflexivity.
Qed.

Lemma final_newline_ignored_witness :
  last (py "github-go-gin-app-build-edp") 0 <> LF /\
  validate_pipeline_name (py "github-go-gin-app-build-edp" ++ [LF])
    = validate_pipeline_name (py "github-go-gin-app-build-edp") /\
  snd (validate_component (py "github-go-gin-app-build-edp" ++ [LF])
         (py "language"))
    = snd (validate_component (py "github-go-gin-app-build-edp")
             (py "language")) /\
  validate_pipeline_name (py "github-go-gin-app-build-edp" ++ [LF; LF])
    = (false, None) /\
  snd (validate_component (py "github-go-gin-app-build-edp" ++ [LF; LF])
         (py "language")) = Return false.
Proof.
  split; [discriminate|].
  apply (final_newline_ignored (py "github-go-gin-app-build-edp")
           (py "language")).
  discriminate.
Defined.
